(** * CursorManager (src/demo/index.js): a shallow embedding and its properties

    The class [CursorManager] keeps a cursor overlay (a [div]) on top of the
    element that carries a focus class.  It reads the document (class lists,
    offset parents, bounding rectangles, scroll offsets, computed borders),
    writes the inline style of its own overlay, calls [window.scroll] and
    calls the registered listeners.

    Reading the embedding:
    - the document is a read-only snapshot [Dom], passed to every method: the
      manager never writes to the document apart from its own overlay, and a
      method runs to completion inside one turn of the event loop;
    - the manager, its overlay element, the [MutationObserver]s it created and
      a trace of what it did to the outside form the [World], threaded through
      a state and exception monad [M];
    - JavaScript numbers are kept abstract ([JSNumber]): every statement holds
      whatever the arithmetic does, IEEE doubles included;
    - listeners are opaque handlers: a call is recorded in the trace, the
      handler is assumed to return normally and not to re-enter the manager;
    - [focusClassName] is assumed to be a plain CSS identifier, so that the
      selector [.name] selects the elements whose class list holds it. *)

From Stdlib Require Import Ascii String QArith.
From stdpp Require Import base list strings.


Local Open Scope string_scope.
Local Open Scope list_scope.

(** ** Numbers *)

(** The operations the source applies to numbers: [+], [-], [*], the literal
    [0.5], [parseInt(s, 10)] and the conversion done by a template literal. *)
Class JSNumber := {
  number : Type;
  num_add : number -> number -> number;
  num_sub : number -> number -> number;
  num_mul : number -> number -> number;
  num_half : number;
  parseInt10 : string -> number;
  num_toString : number -> string;
}.

(** ** Results of a method: normal completion or a thrown DOM exception *)

Inductive DOMException := NotFoundError.

Inductive Result (A : Type) :=
| Ok (a : A)
| Throw (e : DOMException).
Arguments Ok {A} a.
Arguments Throw {A} e.

(** Elements are references (node identities); [===] is equality of them. *)
Definition Elem := nat.

(** Listener functions, compared by reference in [removeEventListener]. *)
Definition Handler := nat.

(** [mutation.target] is the only field of a record the callback reads. *)
Record MutationRecord := { target : Elem }.

(** [new CustomEvent(type, { detail: { target } })] *)
Record CustomEvent := { ev_type : string; detail_target : Elem }.

(** [{ type, listener }] *)
Record EventListener := { type : string; listener : Handler }.

(** The inline style of the overlay: the properties the source assigns. *)
Record Style := {
  position : string;
  top : string;
  left : string;
  display : string;
  transitionDuration : string;
  width : string;
  height : string;
  transform : string;
}.

(** The overlay element [this.cursor_]. [parentNode] is [Some root] while it
    is a child of the root. *)
Record CursorElement := {
  c_classList : list string;
  style : Style;
  parentNode : option Elem;
}.

(** Methods whose invocation is recorded in the trace. *)
Inductive Method := MFocus | MPlace | MMove.

Section Engine.
Context {N : JSNumber}.

(** [cursorManager$Rect] *)
Record Rect := { r_top : number; r_left : number; r_width : number; r_height : number }.

(** The document and window, as one method call reads them. *)
Record Dom := {
  (** [document.body] *)
  body : Elem;
  (** the elements of the document, in tree order *)
  docOrder : list Elem;
  (** [element.classList] *)
  classList : Elem -> list string;
  (** [element.offsetParent], [element.offsetParent.offsetParent], ... up to
      the first [null]: the chain is finite, the offset parent of an element
      being one of its proper ancestors *)
  offsetChain : Elem -> list Elem;
  (** [a.contains(b)]: [a] is [b] or an ancestor of [b] *)
  nodeContains : Elem -> Elem -> bool;
  (** [element.getBoundingClientRect()], in viewport coordinates *)
  boundingClientRect : Elem -> Rect;
  (** [window.pageXOffset], [window.pageYOffset], [window.innerHeight] *)
  pageXOffset : number;
  pageYOffset : number;
  innerHeight : number;
  (** [getComputedStyle(this.cursor_, '')] *)
  cursorBorderTopWidth : string;
  cursorBorderLeftWidth : string;
}.

(** What the manager does to the outside, in order. [Called] entries are
    ghost: they record which method ran. *)
Inductive Effect :=
| Called (m : Method)
| WindowScroll (s_left s_top : number) (behavior : string)
| Triggered (ty : string) (ev : CustomEvent)
| HandlerCall (h : Handler) (ev : CustomEvent).

(** The manager's fields, the overlay it owns, the observers it created
    ([observers !! i] tells whether the i-th one is connected) and the trace. *)
Record World := {
  root_ : Elem;
  focusClassName_ : string;
  cursor_ : CursorElement;
  focused_ : option Elem;
  freezed_ : bool;
  viewHeight_ : number;
  observer_ : option nat;
  eventListeners_ : list EventListener;
  observers : list bool;
  trace : list Effect;
}.

(** *** Field updates *)

Definition with_cursor (c : CursorElement) (w : World) : World :=
  {| root_ := root_ w; focusClassName_ := focusClassName_ w; cursor_ := c;
     focused_ := focused_ w; freezed_ := freezed_ w; viewHeight_ := viewHeight_ w;
     observer_ := observer_ w; eventListeners_ := eventListeners_ w;
     observers := observers w; trace := trace w |}.

Definition with_focused (f : option Elem) (w : World) : World :=
  {| root_ := root_ w; focusClassName_ := focusClassName_ w; cursor_ := cursor_ w;
     focused_ := f; freezed_ := freezed_ w; viewHeight_ := viewHeight_ w;
     observer_ := observer_ w; eventListeners_ := eventListeners_ w;
     observers := observers w; trace := trace w |}.

Definition with_freezed (b : bool) (w : World) : World :=
  {| root_ := root_ w; focusClassName_ := focusClassName_ w; cursor_ := cursor_ w;
     focused_ := focused_ w; freezed_ := b; viewHeight_ := viewHeight_ w;
     observer_ := observer_ w; eventListeners_ := eventListeners_ w;
     observers := observers w; trace := trace w |}.

Definition with_observer (o : option nat) (obs : list bool) (w : World) : World :=
  {| root_ := root_ w; focusClassName_ := focusClassName_ w; cursor_ := cursor_ w;
     focused_ := focused_ w; freezed_ := freezed_ w; viewHeight_ := viewHeight_ w;
     observer_ := o; eventListeners_ := eventListeners_ w;
     observers := obs; trace := trace w |}.

Definition with_listeners (ls : list EventListener) (w : World) : World :=
  {| root_ := root_ w; focusClassName_ := focusClassName_ w; cursor_ := cursor_ w;
     focused_ := focused_ w; freezed_ := freezed_ w; viewHeight_ := viewHeight_ w;
     observer_ := observer_ w; eventListeners_ := ls;
     observers := observers w; trace := trace w |}.

Definition with_trace (t : list Effect) (w : World) : World :=
  {| root_ := root_ w; focusClassName_ := focusClassName_ w; cursor_ := cursor_ w;
     focused_ := focused_ w; freezed_ := freezed_ w; viewHeight_ := viewHeight_ w;
     observer_ := observer_ w; eventListeners_ := eventListeners_ w;
     observers := observers w; trace := t |}.

Definition with_style (st : Style) (c : CursorElement) : CursorElement :=
  {| c_classList := c_classList c; style := st; parentNode := parentNode c |}.

Definition with_parent (p : option Elem) (c : CursorElement) : CursorElement :=
  {| c_classList := c_classList c; style := style c; parentNode := p |}.

Definition with_classes (cl : list string) (c : CursorElement) : CursorElement :=
  {| c_classList := cl; style := style c; parentNode := parentNode c |}.

Definition st_position (v : string) (s : Style) : Style :=
  {| position := v; top := top s; left := left s; display := display s;
     transitionDuration := transitionDuration s; width := width s;
     height := height s; transform := transform s |}.
Definition st_top (v : string) (s : Style) : Style :=
  {| position := position s; top := v; left := left s; display := display s;
     transitionDuration := transitionDuration s; width := width s;
     height := height s; transform := transform s |}.
Definition st_left (v : string) (s : Style) : Style :=
  {| position := position s; top := top s; left := v; display := display s;
     transitionDuration := transitionDuration s; width := width s;
     height := height s; transform := transform s |}.
Definition st_display (v : string) (s : Style) : Style :=
  {| position := position s; top := top s; left := left s; display := v;
     transitionDuration := transitionDuration s; width := width s;
     height := height s; transform := transform s |}.
Definition st_transitionDuration (v : string) (s : Style) : Style :=
  {| position := position s; top := top s; left := left s; display := display s;
     transitionDuration := v; width := width s;
     height := height s; transform := transform s |}.
Definition st_width (v : string) (s : Style) : Style :=
  {| position := position s; top := top s; left := left s; display := display s;
     transitionDuration := transitionDuration s; width := v;
     height := height s; transform := transform s |}.
Definition st_height (v : string) (s : Style) : Style :=
  {| position := position s; top := top s; left := left s; display := display s;
     transitionDuration := transitionDuration s; width := width s;
     height := v; transform := transform s |}.
Definition st_transform (v : string) (s : Style) : Style :=
  {| position := position s; top := top s; left := left s; display := display s;
     transitionDuration := transitionDuration s; width := width s;
     height := height s; transform := v |}.

(** ** The monad of methods *)

Definition M (A : Type) : Type := World -> Result (A * World).

Definition ret {A} (a : A) : M A := fun w => Ok (a, w).

Definition bind {A B} (m : M A) (k : A -> M B) : M B :=
  fun w => match m w with
           | Ok (a, w') => k a w'
           | Throw e => Throw e
           end.

Definition throw {A} (e : DOMException) : M A := fun _ => Throw e.
Definition gets {A} (f : World -> A) : M A := fun w => Ok (f w, w).
Definition modify (f : World -> World) : M unit := fun w => Ok (tt, f w).

End Engine.

Declare Scope cm_scope.
Delimit Scope cm_scope with cm.
Notation "x <- m ;; k" := (bind m (fun x => k))
  (at level 100, m at next level, k at level 200, right associativity) : cm_scope.
Notation "m ;; k" := (bind m (fun _ => k))
  (at level 100, k at level 200, right associativity) : cm_scope.

Local Open Scope cm_scope.

Section Methods.
Context {N : JSNumber}.

(** ** Module-level helpers *)

(** [classList.contains(token)] *)
Definition classList_contains (cl : list string) (token : string) : bool :=
  bool_decide (token ∈ cl).

(** [classList.add(token)] *)
Definition classList_add (cl : list string) (token : string) : list string :=
  if classList_contains cl token then cl else cl ++ [token].

(** [isInDocumentBody] on a non-null element; [chain] holds the offset
    parents still ahead, so [chain = []] is [!element.offsetParent]. *)
Fixpoint isInDocumentBody_from (d : Dom) (element : Elem) (chain : list Elem) : bool :=
  if bool_decide (element = body d) then true
  else match chain with
       | [] => false
       | offsetParent :: chain' => isInDocumentBody_from d offsetParent chain'
       end.

Definition isInDocumentBody (d : Dom) (element : option Elem) : bool :=
  match element with
  | None => false
  | Some e => isInDocumentBody_from d e (offsetChain d e)
  end.

(** [element.offsetParent] *)
Definition offsetParent (d : Dom) (element : Elem) : option Elem :=
  head (offsetChain d element).

(** [isInDocumentBody] as the source writes it, reading [offsetParent] at
    every step; [fuel] bounds the recursion and [None] tells it ran out.
    [isInDocumentBody_enough_fuel] below relates it to [isInDocumentBody]. *)
Fixpoint isInDocumentBody_fuel (fuel : nat) (d : Dom) (element : option Elem)
  : option bool :=
  match element with
  | None => Some false
  | Some e =>
      if bool_decide (e = body d) then Some true
      else match offsetParent d e with
           | None => Some false
           | Some p =>
               match fuel with
               | O => None
               | S fuel' => isInDocumentBody_fuel fuel' d (Some p)
               end
           end
  end.

(** The chains of a document agree with each other: the chain of an offset
    parent is the rest of the chain of its child. *)
Definition coherentChains (d : Dom) : Prop :=
  forall e p rest, offsetChain d e = p :: rest -> offsetChain d p = rest.

Definition getAbsoluteElementRect (d : Dom) (elem : Elem) : Rect :=
  let r := boundingClientRect d elem in
  {| r_left := num_add (r_left r) (pageXOffset d);
     r_top := num_add (r_top r) (pageYOffset d);
     r_width := r_width r;
     r_height := r_height r |}.

(** [document.querySelector(selector)] for a class selector [.name]: the
    first element of the document, in tree order, whose class list holds
    [name]. *)
Definition querySelector (d : Dom) (selector : string) : option Elem :=
  match selector with
  | String "."%char name => find (fun e => classList_contains (classList d e) name) (docOrder d)
  | _ => None
  end.

(** ** Primitive steps *)

Definition log (e : Effect) : M unit :=
  modify (fun w => with_trace (trace w ++ [e]) w).

Definition setStyle (f : Style -> Style) : M unit :=
  modify (fun w => with_cursor (with_style (f (style (cursor_ w))) (cursor_ w)) w).

Definition FOCUS_UPDATED : string := "focusUpdated".

(** ** Private methods *)

Definition hideCursor_ : M unit := setStyle (st_display "none").

Definition showCursor_ : M unit := setStyle (st_display "").

Definition styleCursor_ : M unit :=
  modify (fun w => with_cursor
            (with_classes (classList_add (c_classList (cursor_ w)) "__spatial-navigation-cursor__")
                          (cursor_ w)) w);;
  setStyle (st_position "absolute");;
  setStyle (st_top "0");;
  setStyle (st_left "0");;
  hideCursor_.

(** [this.root_.appendChild(this.cursor_)] *)
Definition appendToRoot_ : M unit :=
  modify (fun w => with_cursor (with_parent (Some (root_ w)) (cursor_ w)) w).

(** [this.root_.removeChild(this.cursor_)]: [removeChild] throws a
    [NotFoundError] when its argument is not a child of the node. *)
Definition removeFromRoot_ : M unit :=
  parent <- gets (fun w => parentNode (cursor_ w));;
  root <- gets root_;;
  if bool_decide (parent = Some root)
  then modify (fun w => with_cursor (with_parent None (cursor_ w)) w)
  else throw NotFoundError.

Definition scrollIntoView_ (d : Dom) (rect : Rect) : M unit :=
  let left := pageXOffset d in
  log (WindowScroll left
         (num_add (num_sub (r_top rect) (num_mul (innerHeight d) num_half))
                  (num_mul (r_height rect) num_half))
         "smooth").

Definition moveCursorTo_ (d : Dom) (rect : Rect) : M unit :=
  let borserTop := parseInt10 (cursorBorderTopWidth d) in
  let borserLeft := parseInt10 (cursorBorderLeftWidth d) in
  setStyle (st_transform
              ("translate3d(" +:+ num_toString (num_sub (r_left rect) borserLeft) +:+ "px, "
               +:+ num_toString (num_sub (r_top rect) borserTop) +:+ "px, 0)")).

Definition resizeCursorTo_ (rect : Rect) : M unit :=
  setStyle (st_width (num_toString (r_width rect) +:+ "px"));;
  setStyle (st_height (num_toString (r_height rect) +:+ "px")).

(** [this.eventListeners_.filter(l => l.type === type).forEach(l => l.listener(...args))] *)
Definition trigger_ (ty : string) (ev : CustomEvent) : M unit :=
  log (Triggered ty ev);;
  ls <- gets eventListeners_;;
  modify (fun w => with_trace
            (trace w ++ map (fun l => HandlerCall (listener l) ev)
                            (filter (fun l => type l = ty) ls)) w).

(** ** Public methods *)

Definition place (d : Dom) : M unit :=
  log (Called MPlace);;
  tracked <- gets focused_;;
  cls <- gets focusClassName_;;
  let focused := if isInDocumentBody d tracked then tracked
                 else querySelector d ("." +:+ cls) in
  match focused with
  | None => hideCursor_
  | Some focused =>
      origTransitionDuration <- gets (fun w => transitionDuration (style (cursor_ w)));;
      setStyle (st_transitionDuration "0");;
      let r := getAbsoluteElementRect d focused in
      scrollIntoView_ d r;;
      resizeCursorTo_ r;;
      moveCursorTo_ d r;;
      (if negb (classList_contains (classList d focused) cls)
       then hideCursor_ else showCursor_);;
      setStyle (st_transitionDuration origTransitionDuration)
  end.

Definition move (d : Dom) : M unit :=
  log (Called MMove);;
  tracked <- gets focused_;;
  cls <- gets focusClassName_;;
  let focused := if isInDocumentBody d tracked then tracked
                 else querySelector d ("." +:+ cls) in
  match focused with
  | None => hideCursor_
  | Some focused =>
      if negb (classList_contains (classList d focused) cls)
      then hideCursor_
      else
        showCursor_;;
        let r := getAbsoluteElementRect d focused in
        scrollIntoView_ d r;;
        resizeCursorTo_ r;;
        moveCursorTo_ d r
  end.

Definition focus (d : Dom) : M unit :=
  log (Called MFocus);;
  tracked <- gets focused_;;
  disp <- gets (fun w => display (style (cursor_ w)));;
  if negb (bool_decide (is_Some tracked)) || bool_decide (disp = "none")
  then place d
  else move d.

(** [new MutationObserver(callback)] followed by [observer.observe(root, ...)]:
    the new observer is connected and takes the next index. *)
Definition observeFocus_ : M unit :=
  obs <- gets observers;;
  modify (with_observer (Some (length obs)) (obs ++ [true])).

(** The [for ... of] loop of the observer callback, with its [break]. *)
Fixpoint scanRecords (d : Dom) (cls : string) (mutationRecords : list MutationRecord)
  : option Elem :=
  match mutationRecords with
  | [] => None
  | mutation :: rest =>
      if classList_contains (classList d (target mutation)) cls
      then Some (target mutation)
      else scanRecords d cls rest
  end.

(** The callback given to the [MutationObserver]. *)
Definition observerCallback (d : Dom) (mutationRecords : list MutationRecord) : M unit :=
  cls <- gets focusClassName_;;
  match scanRecords d cls mutationRecords with
  | Some target =>
      modify (with_focused (Some target));;
      frozen <- gets freezed_;;
      (if negb frozen then focus d else ret tt);;
      trigger_ FOCUS_UPDATED {| ev_type := FOCUS_UPDATED; detail_target := target |}
  | None => hideCursor_
  end.

(** [observer.disconnect()] on the observer held in [observer_]. *)
Definition disconnectFocus_ : M unit :=
  o <- gets observer_;;
  match o with
  | None => ret tt
  | Some i => modify (fun w => with_observer (observer_ w) (<[i:=false]> (observers w)) w)
  end.

Definition start (d : Dom) : M unit :=
  styleCursor_;;
  appendToRoot_;;
  observeFocus_;;
  focus d.

Definition resume (d : Dom) : M unit :=
  modify (with_freezed false);;
  focus d.

Definition stop : M unit :=
  removeFromRoot_;;
  disconnectFocus_.

Definition freeze : M unit := modify (with_freezed true).

Definition getCursor : M CursorElement := gets cursor_.

Definition getFocusedElement : M (option Elem) := gets focused_.

Definition addEventListener (ty : string) (l : Handler) : M unit :=
  modify (fun w => with_listeners (eventListeners_ w ++ [{| type := ty; listener := l |}]) w).

(** [findIndex] then [splice(idx, 1)]: the first matching entry goes. *)
Fixpoint removeFirst (ty : string) (l : Handler) (ls : list EventListener)
  : list EventListener :=
  match ls with
  | [] => []
  | x :: rest =>
      if bool_decide (type x = ty) && bool_decide (listener x = l)
      then rest
      else x :: removeFirst ty l rest
  end.

Definition removeEventListener (ty : string) (l : Handler) : M unit :=
  modify (fun w => with_listeners (removeFirst ty l (eventListeners_ w)) w).

(** [new CursorManager({ root, focusClassName })]; [document.createElement('div')]
    gives an element with no class, no inline style and no parent. *)
Definition constructor (d : Dom) (root : Elem) (focusClassName : string) : World :=
  {| root_ := root;
     focusClassName_ := focusClassName;
     cursor_ := {| c_classList := [];
                   style := {| position := ""; top := ""; left := ""; display := "";
                               transitionDuration := ""; width := ""; height := "";
                               transform := "" |};
                   parentNode := None |};
     focused_ := None;
     freezed_ := false;
     viewHeight_ := innerHeight d;
     observer_ := None;
     eventListeners_ := [];
     observers := [];
     trace := [] |}.

(** ** The host: delivery of mutation batches, and runs *)

(** Every connected observer has its callback invoked with the batch; all the
    observers of a manager share one callback. *)
Fixpoint notifyEach (flags : list bool) (callback : M unit) : M unit :=
  match flags with
  | [] => ret tt
  | connected :: rest =>
      (if connected then callback else ret tt);;
      notifyEach rest callback
  end.

Definition deliver (d : Dom) (mutationRecords : list MutationRecord) : M unit :=
  obs <- gets observers;;
  notifyEach obs (observerCallback d mutationRecords).

(** What can happen to a manager: a call of a public method by its owner, or
    a batch of class mutations of the root subtree reported by the host. *)
Inductive Action :=
| AStart
| AResume
| AStop
| AFreeze
| AFocus
| APlace
| AMove
| AAddEventListener (ty : string) (l : Handler)
| ARemoveEventListener (ty : string) (l : Handler)
| AMutations (mutationRecords : list MutationRecord).

Definition step (d : Dom) (a : Action) : M unit :=
  match a with
  | AStart => start d
  | AResume => resume d
  | AStop => stop
  | AFreeze => freeze
  | AFocus => focus d
  | APlace => place d
  | AMove => move d
  | AAddEventListener ty l => addEventListener ty l
  | ARemoveEventListener ty l => removeEventListener ty l
  | AMutations rs => deliver d rs
  end.

(** A run: each action happens in the document as it is at that moment. *)
Fixpoint run (events : list (Dom * Action)) : M unit :=
  match events with
  | [] => ret tt
  | (d, a) :: rest => step d a;; run rest
  end.

End Methods.

(** ** Notions used to state the properties *)

Section Notions.
Context {N : JSNumber}.

(** The element carries the focus class of the manager. *)
Definition marked (d : Dom) (w : World) (e : Elem) : bool :=
  classList_contains (classList d e) (focusClassName_ w).

(** The value of the local [focused] of [place] and [move]. *)
Definition effectiveTarget (d : Dom) (w : World) : option Elem :=
  if isInDocumentBody d (focused_ w) then focused_ w
  else querySelector d ("." +:+ focusClassName_ w).

(** The overlay is shown: [hideCursor_] writes ['none'], [showCursor_] ['']. *)
Definition visible (w : World) : Prop := display (style (cursor_ w)) = "".
Definition hidden (w : World) : Prop := display (style (cursor_ w)) = "none".

(** The geometry of the overlay: the three properties written by
    [resizeCursorTo_] and [moveCursorTo_]. *)
Definition geometry (w : World) : string * string * string :=
  (width (style (cursor_ w)), height (style (cursor_ w)), transform (style (cursor_ w))).

(** The geometry that [resizeCursorTo_] and [moveCursorTo_] give for [rect]. *)
Definition geometryOf (d : Dom) (rect : Rect) : string * string * string :=
  (num_toString (r_width rect) +:+ "px",
   num_toString (r_height rect) +:+ "px",
   "translate3d("
     +:+ num_toString (num_sub (r_left rect) (parseInt10 (cursorBorderLeftWidth d)))
     +:+ "px, "
     +:+ num_toString (num_sub (r_top rect) (parseInt10 (cursorBorderTopWidth d)))
     +:+ "px, 0)").

(** The [window.scroll] call that centres [rect] vertically. *)
Definition scrollTo (d : Dom) (rect : Rect) : Effect :=
  WindowScroll (pageXOffset d)
    (num_add (num_sub (r_top rect) (num_mul (innerHeight d) num_half))
             (num_mul (r_height rect) num_half))
    "smooth".

(** What [trigger_] leaves in the trace for a focus-updated event on [t]. *)
Definition notification (w : World) (t : Elem) : list Effect :=
  let ev := {| ev_type := FOCUS_UPDATED; detail_target := t |} in
  Triggered FOCUS_UPDATED ev
  :: map (fun l => HandlerCall (listener l) ev)
         (filter (fun l => type l = FOCUS_UPDATED) (eventListeners_ w)).

Definition isScroll (e : Effect) : bool :=
  match e with WindowScroll _ _ _ => true | _ => false end.

Definition isCall (m : Method) (e : Effect) : bool :=
  match e with
  | Called m' =>
      match m, m' with
      | MFocus, MFocus | MPlace, MPlace | MMove, MMove => true
      | _, _ => false
      end
  | _ => false
  end.

Definition isNotification (e : Effect) : bool :=
  match e with Triggered _ _ | HandlerCall _ _ => true | _ => false end.

(** How many entries of a trace satisfy [p]. *)
Definition occurrences (p : Effect -> bool) (t : list Effect) : nat :=
  length (List.filter p t).

(** The test of [focus]: [!this.focused_ || this.cursor_.style.display === 'none']. *)
Definition focusPlaces (w : World) : bool :=
  negb (bool_decide (is_Some (focused_ w)))
  || bool_decide (display (style (cursor_ w)) = "none").

(** The fields of the manager other than [focused_], with the class list
    and the parent of the overlay. *)
Definition sameFrame (w w' : World) : Prop :=
  root_ w' = root_ w /\ focusClassName_ w' = focusClassName_ w /\
  freezed_ w' = freezed_ w /\
  viewHeight_ w' = viewHeight_ w /\ observer_ w' = observer_ w /\
  eventListeners_ w' = eventListeners_ w /\ observers w' = observers w /\
  c_classList (cursor_ w') = c_classList (cursor_ w) /\
  parentNode (cursor_ w') = parentNode (cursor_ w).

(** The part of the world outside the overlay's style and the trace. *)
Definition sameManager (w w' : World) : Prop :=
  sameFrame w w' /\ focused_ w' = focused_ w.

(** The manager holds the one observer it ever created. *)
Definition oneObserver (w : World) : Prop :=
  observer_ w = Some 0 /\ length (observers w) = 1.

(** *** The resolution of the target as the specification words it *)

(** [root.querySelector('.' + name)]: the first descendant of [root], in tree
    order, whose class list holds [name]. *)
Definition querySelectorWithin (d : Dom) (root : Elem) (name : string) : option Elem :=
  find (fun e => nodeContains d root e && negb (bool_decide (e = root))
                 && classList_contains (classList d e) name)
       (docOrder d).

(** Follows the specification: the tracked element when it is attached,
    otherwise the result of querying the observed subtree. *)
Definition spec_effectiveTarget (d : Dom) (w : World) : option Elem :=
  if isInDocumentBody d (focused_ w) then focused_ w
  else querySelectorWithin d (root_ w) (focusClassName_ w).

(** Follows the specification: some live element carries the marker. *)
Definition spec_someLiveMarked (d : Dom) (w : World) : bool :=
  existsb (fun e => isInDocumentBody d (Some e) && marked d w e) (docOrder d).

End Notions.

(** ** A concrete number instance and concrete documents, for evaluation *)

Module Example.

(** Exact rationals with a [NaN]; the documents below only use values on
    which doubles are exact too. *)
Definition qnum : Type := option Q.

Definition lift2 (f : Q -> Q -> Q) (a b : qnum) : qnum :=
  match a, b with
  | Some x, Some y => Some (Qred (f x y))
  | _, _ => None
  end.

Definition digitValue (c : ascii) : option N :=
  let n := N_of_ascii c in
  if ((48 <=? n) && (n <=? 57))%N then Some (n - 48)%N else None.

(** The leading decimal digits of [s]; [acc] is [None] until one is read. *)
Fixpoint leadingDigits (s : string) (acc : option N) : option N :=
  match s with
  | EmptyString => acc
  | String c rest =>
      match digitValue c with
      | Some v => leadingDigits rest (Some (10 * default 0 acc + v)%N)
      | None => acc
      end
  end.

Fixpoint skipSpaces (s : string) : string :=
  match s with
  | String " " rest => skipSpaces rest
  | _ => s
  end.

(** [parseInt(s, 10)]: white space, a sign, digits; [NaN] without digits. *)
Definition parseIntQ (s : string) : qnum :=
  match skipSpaces s with
  | String "-" rest => (fun n => inject_Z (- Z.of_N n)) <$> leadingDigits rest None
  | String "+" rest => (fun n => inject_Z (Z.of_N n)) <$> leadingDigits rest None
  | s' => (fun n => inject_Z (Z.of_N n)) <$> leadingDigits s' None
  end.

(** The decimal digits of [n], in front of [acc]; [fuel] bounds their number. *)
Fixpoint digitsOf (fuel : nat) (n : N) (acc : string) : string :=
  match fuel with
  | O => acc
  | S fuel' =>
      let acc' := String (ascii_of_N (48 + n mod 10)) acc in
      if (n / 10 =? 0)%N then acc' else digitsOf fuel' (n / 10)%N acc'
  end.

Definition showN (n : N) : string := digitsOf (S (N.size_nat n)) n "".

Definition showZ (z : Z) : string :=
  if (z <? 0)%Z then "-" +:+ showN (Z.abs_N z) else showN (Z.abs_N z).

(** Up to [fuel] decimals of [r / d], for [0 <= r < d]; trailing zeros are
    not produced.  A denominator [2 ^ k] needs [k] decimals. *)
Fixpoint decimals (fuel : nat) (r d : Z) : string :=
  match fuel with
  | O => ""
  | S fuel' =>
      if (r =? 0)%Z then ""
      else showZ (10 * r / d)%Z +:+ decimals fuel' ((10 * r) mod d)%Z d
  end.

Definition toStringQ (x : qnum) : string :=
  match x with
  | None => "NaN"
  | Some q =>
      let q' := Qred q in
      let n := Qnum q' in
      let d := Zpos (Qden q') in
      let i := Z.quot n d in
      let r := Z.abs (Z.rem n d) in
      if (r =? 0)%Z then showZ i
      else (if (n <? 0)%Z then "-" else "")
           +:+ showZ (Z.abs i) +:+ "." +:+ decimals (Pos.size_nat (Qden q')) r d
  end.

#[export] Instance QNumber : JSNumber := {|
  number := qnum;
  num_add := lift2 Qplus;
  num_sub := lift2 Qminus;
  num_mul := lift2 Qmult;
  num_half := Some (1 # 2);
  parseInt10 := parseIntQ;
  num_toString := toStringQ;
|}.

Definition int (z : Z) : qnum := Some (inject_Z z).

(** The elements of the example page:
<<
  <body>                       1
    <div id="root">            2
      <div class="item">A      3
      <div class="item">B      4
      <div class="item">C      5
    <div class="item">X        6   (outside the root)
>>
    Every item is 80 by 40 at left 50; item number [e] is at top
    [100 * (e - 2)].  The window is 600 high and not scrolled; the overlay
    has a 2px border. *)
Definition BODY : Elem := 1.
Definition ROOT : Elem := 2.
Definition A : Elem := 3.
Definition B : Elem := 4.
Definition C : Elem := 5.
Definition X : Elem := 6.

(** The page when the elements of [marked] carry the class [focus] and the
    elements of [hidden] are not rendered ([display: none], hence without
    offset parent). *)
Definition page (marked hidden : list Elem) : Dom := {|
  body := BODY;
  docOrder := [BODY; ROOT; A; B; C; X];
  classList := fun e =>
    if bool_decide (e ∈ marked) then ["item"; "focus"]
    else if bool_decide (e ∈ [A; B; C; X]) then ["item"] else [];
  offsetChain := fun e =>
    if bool_decide (e = BODY) || bool_decide (e ∈ hidden) then [] else [BODY];
  nodeContains := fun a b =>
    bool_decide (a = b) || bool_decide (a = BODY)
    || (bool_decide (a = ROOT) && bool_decide (b ∈ [A; B; C]));
  boundingClientRect := fun e =>
    {| r_top := int (100 * (Z.of_nat e - 2)); r_left := int 50;
       r_width := int 80; r_height := int 40 |};
  pageXOffset := int 0;
  pageYOffset := int 0;
  innerHeight := int 600;
  cursorBorderTopWidth := "2px";
  cursorBorderLeftWidth := "2px";
|}.

(** A manager on the root of the page, looking for the class [focus]. *)
Definition fresh : World := constructor (page [] []) ROOT "focus".

(** The world after a run from [w]; a run that throws leaves [w]. *)
Definition after (events : list (Dom * Action)) (w : World) : World :=
  match run events w with
  | Ok (_, w') => w'
  | Throw _ => w
  end.

(** A record of a class mutation of [e]. *)
Definition mutated (e : Elem) : MutationRecord := {| target := e |}.

Definition focusUpdatedOn (e : Elem) : CustomEvent :=
  {| ev_type := "focusUpdated"; detail_target := e |}.

(** The worlds below are the results of runs from [fresh], evaluated. *)

(** A manager started on the page while [A] carries the class. *)
Definition startedOnA : World :=
  Eval vm_compute in after [(page [A] [], AStart)] fresh.

(** The same, after a batch made it track [A]. *)
Definition trackingA : World :=
  Eval vm_compute in after [(page [A] [], AMutations [mutated A])] startedOnA.

(** A manager with a listener, started on [A] and then frozen. *)
Definition frozenOnA : World :=
  Eval vm_compute in
    after [(page [A] [], AAddEventListener "focusUpdated" 7); (page [A] [], AFreeze)]
          startedOnA.

(** A manager started on [A], after a batch on [C] alone hid the overlay. *)
Definition hiddenByC : World :=
  Eval vm_compute in after [(page [A] [], AMutations [mutated C])] startedOnA.

(** A manager started while no element carries the class. *)
Definition startedOnNothing : World :=
  Eval vm_compute in after [(page [] [], AStart)] fresh.

(** A manager started while [A] and [B] carry the class, after the class
    was taken off [B] and the batch on [B] was processed. *)
Definition afterUnmarkingB : World :=
  Eval vm_compute in
    after [(page [A; B] [], AStart); (page [A] [], AMutations [mutated B])] fresh.

(** A manager started on nothing and frozen, after the class was put on [A]
    and the batch on [A] was processed. *)
Definition markedWhileFrozen : World :=
  Eval vm_compute in
    after [(page [] [], AFreeze); (page [A] [], AMutations [mutated A])] startedOnNothing.

(** A manager that ran for a while, and the same after [stop]. *)
Definition beforeStop : World :=
  Eval vm_compute in
    after [(page [B] [], AMutations [mutated A; mutated B]); (page [B] [], AFreeze)] startedOnA.

Definition stopped : World :=
  Eval vm_compute in after [(page [B] [], AStop)] beforeStop.

(** The outcomes of the calls the counterexamples make. *)
Definition resumedAfterC : World :=
  Eval vm_compute in after [(page [A] [], AResume)] hiddenByC.

Definition resumedOnNewMark : World :=
  Eval vm_compute in after [(page [A] [], AResume)] startedOnNothing.

Definition placedOnX : World :=
  Eval vm_compute in after [(page [X] [], APlace)] startedOnNothing.

End Example.

(** ** Notions for the lifecycle and the listener registry *)

Section LifecycleNotions.
Context {N : JSNumber}.

(** The class that [styleCursor_] gives to the overlay. *)
Definition CURSOR_CLASS : string := "__spatial-navigation-cursor__".

(** The overlay as [styleCursor_] leaves it, visibility apart. *)
Definition styled (w : World) : Prop :=
  c_classList (cursor_ w) = [CURSOR_CLASS] /\
  position (style (cursor_ w)) = "absolute" /\
  top (style (cursor_ w)) = "0" /\
  left (style (cursor_ w)) = "0".

(** [display] holds one of the two values the manager writes. *)
Definition shownOrHidden (w : World) : Prop := visible w \/ hidden w.

(** [this.cursor_.style.display === 'none'] *)
Definition isHidden (w : World) : bool :=
  bool_decide (display (style (cursor_ w)) = "none").

(** What [focus] adds to the trace after its own call: the method it hands
    over to, then the scroll when that method positions the overlay. [place]
    scrolls for every effective target, [move] for one carrying the class. *)
Definition focusSteps (d : Dom) (w : World) : list Effect :=
  if focusPlaces w
  then Called MPlace ::
       match effectiveTarget d w with
       | Some e => [scrollTo d (getAbsoluteElementRect d e)]
       | None => []
       end
  else Called MMove ::
       match effectiveTarget d w with
       | Some e => if marked d w e then [scrollTo d (getAbsoluteElementRect d e)] else []
       | None => []
       end.

(** Follows the specification: the translation to
    [(left - borderLeftWidth, top - borderTopWidth)], the border widths being
    the widths themselves, as numbers. *)
Definition spec_translate (rect : Rect) (borderLeftWidth borderTopWidth : number) : string :=
  "translate3d(" +:+ num_toString (num_sub (r_left rect) borderLeftWidth) +:+ "px, "
  +:+ num_toString (num_sub (r_top rect) borderTopWidth) +:+ "px, 0)".

(** The observer held in [observer_] exists and is observing. *)
Definition observerHeld (w : World) : Prop :=
  exists i, observer_ w = Some i /\ observers w !! i = Some true.

(** The overlay is a child of the root. *)
Definition attached (w : World) : Prop := parentNode (cursor_ w) = Some (root_ w).

(** The test of [removeEventListener]:
    [l.type === type && l.listener === listener]. *)
Definition sameRegistration (ty : string) (h : Handler) (l : EventListener) : bool :=
  bool_decide (type l = ty) && bool_decide (listener l = h).

(** How many times [h] is registered under [ty]. *)
Definition registrations (ty : string) (h : Handler) (ls : list EventListener) : nat :=
  length (List.filter (sameRegistration ty h) ls).



Definition isMutations (a : Action) : bool :=
  match a with AMutations _ => true | _ => false end.

(** The actions that do not call [focus], [place] or [move] themselves:
    batches, [freeze] and the two registry methods. *)
Definition callsNoFocus (a : Action) : bool :=
  match a with
  | AMutations _ | AFreeze | AAddEventListener _ _ | ARemoveEventListener _ _ => true
  | _ => false
  end.

(** What a frozen manager keeps: the flag, the geometry, no scroll, and the
    overlay not becoming visible. *)
Definition staysFrozen (w w' : World) : Prop :=
  freezed_ w' = true /\
  geometry w' = geometry w /\
  (visible w' -> visible w) /\
  exists added, trace w' = trace w ++ added /\ occurrences isScroll added = 0.

(** What every completed action keeps: the root, the class name and the
    transition duration; the styling, once there; [display] among its two
    values, once there; a tracked element, once there. *)
Definition keeps (w w' : World) : Prop :=
  root_ w' = root_ w /\
  focusClassName_ w' = focusClassName_ w /\
  transitionDuration (style (cursor_ w')) = transitionDuration (style (cursor_ w)) /\
  (styled w -> styled w') /\
  (shownOrHidden w -> shownOrHidden w') /\
  (is_Some (focused_ w) -> is_Some (focused_ w')).

(** The world in which [start] calls [focus]: the overlay styled, hidden and
    appended, a new observer connected. *)
Definition readyToFocus (w : World) : World :=
  let c := cursor_ w in
  let st := style c in
  with_observer (Some (length (observers w))) (observers w ++ [true])
    (with_cursor
       {| c_classList := classList_add (c_classList c) CURSOR_CLASS;
          style := {| position := "absolute"; top := "0"; left := "0"; display := "none";
                      transitionDuration := transitionDuration st; width := width st;
                      height := height st; transform := transform st |};
          parentNode := Some (root_ w) |}
       w).

End LifecycleNotions.

(** ** More worlds on the example page *)

Module Cases.
Import Example.

(** A registration of handler [h] under [focusUpdated]. *)
Definition onFocusUpdated (h : Handler) : EventListener :=
  {| type := "focusUpdated"; listener := h |}.

(** A manager with three listeners: handler 7 twice under [focusUpdated]
    with handler 8 in between. *)
Definition threeListeners : World :=
  Eval vm_compute in
    after [(page [A] [], AAddEventListener "focusUpdated" 7);
           (page [A] [], AAddEventListener "focusUpdated" 8);
           (page [A] [], AAddEventListener "focusUpdated" 7)] startedOnA.

(** The same after one [removeEventListener('focusUpdated', 7)]. *)
Definition twoListeners : World :=
  Eval vm_compute in
    after [(page [A] [], ARemoveEventListener "focusUpdated" 7)] threeListeners.

(** The digits after a decimal point, as a numerator over a power of ten. *)
Fixpoint fractionDigits (s : string) (num den : N) : N * N :=
  match s with
  | EmptyString => (num, den)
  | String c rest =>
      match digitValue c with
      | Some v => fractionDigits rest (10 * num + v)%N (10 * den)%N
      | None => (num, den)
      end
  end.

Fixpoint afterDigits (s : string) : string :=
  match s with
  | EmptyString => s
  | String c rest =>
      match digitValue c with
      | Some _ => afterDigits rest
      | None => s
      end
  end.

(** The number a CSS pixel length such as [1.5px] denotes. *)
Definition pixels (s : string) : qnum :=
  match leadingDigits s None with
  | None => None
  | Some i =>
      match afterDigits s with
      | String "." rest =>
          let (n, den) := fractionDigits rest 0 1 in
          Some (Qred (inject_Z (Z.of_N i) + (Z.of_N n # Z.to_pos (Z.of_N den))))
      | _ => Some (inject_Z (Z.of_N i))
      end
  end.

(** The example page with [A] carrying the class, the overlay having a
    border of width [border] on every side. *)
Definition borderedPage (border : string) : Dom :=
  let d := page [A] [] in
  {| body := body d; docOrder := docOrder d; classList := classList d;
     offsetChain := offsetChain d; nodeContains := nodeContains d;
     boundingClientRect := boundingClientRect d;
     pageXOffset := pageXOffset d; pageYOffset := pageYOffset d;
     innerHeight := innerHeight d;
     cursorBorderTopWidth := border; cursorBorderLeftWidth := border |}.

(** The manager that tracks [A], after [place] and after [move] on the page
    with a border of 1.5px. *)
Definition placedUnderFractionalBorder : World :=
  Eval vm_compute in after [(borderedPage "1.5px", APlace)] trackingA.

Definition movedUnderFractionalBorder : World :=
  Eval vm_compute in after [(borderedPage "1.5px", AMove)] trackingA.

(** A manager started twice, and the same after [stop]. *)
Definition startedTwice : World :=
  Eval vm_compute in after [(page [A] [], AStart)] startedOnA.

Definition stoppedOnce : World :=
  Eval vm_compute in after [(page [A] [], AStop)] startedTwice.

(** The manager that tracks [A], after [freeze] and [resume] with the class
    on [B] and no batch in between. *)
Definition resumedTracking : World :=
  Eval vm_compute in
    after [(page [B] [], AFreeze); (page [B] [], AResume)] trackingA.

End Cases.

(** * Properties *)

Section Properties.
Context {N : JSNumber}.

Ltac unfold_steps :=
  unfold hideCursor_, showCursor_, scrollIntoView_, resizeCursorTo_, moveCursorTo_,
    trigger_, setStyle, log, bind, gets, modify, ret, throw.

(** ** The walk along the offset parents *)

(** X17. On a document whose offset-parent chains agree with each other,
    the recursion of the source on [offsetParent] ends within as many calls
    as the element has offset parents, and gives what the walk along the
    chain gives. *)
Lemma isInDocumentBody_enough_fuel d :
  coherentChains d ->
  forall fuel e,
    length (offsetChain d e) <= fuel ->
    isInDocumentBody_fuel fuel d (Some e) = Some (isInDocumentBody d (Some e)).
Proof.
  intros Hco fuel. induction fuel as [|fuel IH]; intros e Hlen.
  - cbn. unfold offsetParent. destruct (offsetChain d e) as [|p rest]; cbn in *.
    + destruct (bool_decide (e = body d)); reflexivity.
    + lia.
  - cbn. unfold offsetParent. destruct (offsetChain d e) as [|p rest] eqn:Ec; cbn in *.
    + destruct (bool_decide (e = body d)); reflexivity.
    + destruct (bool_decide (e = body d)); [reflexivity|].
      rewrite IH; rewrite (Hco e p rest Ec); [reflexivity|lia].
Qed.

(** ** Frames: what [place], [move] and [focus] leave alone *)

Lemma sameManager_refl w : sameManager w w.
Proof. repeat split. Qed.

Lemma sameManager_trans w1 w2 w3 :
  sameManager w1 w2 -> sameManager w2 w3 -> sameManager w1 w3.
Proof. unfold sameManager, sameFrame. intros H1 H2. intuition congruence. Qed.

Lemma effectiveTarget_place_local d w :
  (if isInDocumentBody d (focused_ w) then focused_ w
   else querySelector d ("." +:+ focusClassName_ w)) = effectiveTarget d w.
Proof. reflexivity. Qed.

(** [place] always completes; its outcome is read off the effective target. *)
Lemma place_outcome d w :
  exists w', place d w = Ok (tt, w') /\ sameManager w w' /\
    transitionDuration (style (cursor_ w')) = transitionDuration (style (cursor_ w)) /\
    match effectiveTarget d w with
    | None =>
        hidden w' /\ geometry w' = geometry w /\ trace w' = trace w ++ [Called MPlace]
    | Some e =>
        let r := getAbsoluteElementRect d e in
        geometry w' = geometryOf d r /\
        trace w' = trace w ++ [Called MPlace; scrollTo d r] /\
        display (style (cursor_ w')) = (if marked d w e then "" else "none")
    end.
Proof.
  unfold place. unfold_steps. cbn.
  rewrite effectiveTarget_place_local.
  destruct (effectiveTarget d w) as [e|]; cbn.
  - fold (marked d w e).
    destruct (marked d w e); cbn; eexists; (split; [reflexivity|]); cbn;
      rewrite <- app_assoc; repeat split.
  - eexists. split; [reflexivity|]. repeat split.
Qed.

Lemma move_outcome d w :
  exists w', move d w = Ok (tt, w') /\ sameManager w w' /\
    transitionDuration (style (cursor_ w')) = transitionDuration (style (cursor_ w)) /\
    match effectiveTarget d w with
    | None =>
        hidden w' /\ geometry w' = geometry w /\ trace w' = trace w ++ [Called MMove]
    | Some e =>
        let r := getAbsoluteElementRect d e in
        if marked d w e
        then visible w' /\ geometry w' = geometryOf d r /\
             trace w' = trace w ++ [Called MMove; scrollTo d r]
        else hidden w' /\ geometry w' = geometry w /\ trace w' = trace w ++ [Called MMove]
    end.
Proof.
  unfold move. unfold_steps. cbn.
  rewrite effectiveTarget_place_local.
  destruct (effectiveTarget d w) as [e|]; cbn.
  - fold (marked d w e).
    destruct (marked d w e); cbn; eexists; (split; [reflexivity|]); cbn;
      rewrite <- ?app_assoc; repeat split.
  - eexists. split; [reflexivity|]. repeat split.
Qed.

(** [focus] records its call and hands over to [place] or [move]. *)
Lemma focus_unfold d w :
  focus d w =
  (if focusPlaces w then place d else move d)
    (with_trace (trace w ++ [Called MFocus]) w).
Proof. unfold focus, focusPlaces. unfold_steps. cbn. reflexivity. Qed.

Lemma focusPlaces_true w :
  focusPlaces w = true <-> focused_ w = None \/ hidden w.
Proof.
  unfold focusPlaces, hidden. rewrite orb_true_iff, negb_true_iff.
  rewrite bool_decide_eq_false, bool_decide_eq_true.
  destruct (focused_ w) as [e|]; split; intros [H|H]; eauto; try discriminate.
  - exfalso. apply H. eauto.
Qed.

Lemma querySelector_class d name :
  querySelector d ("." +:+ name)
  = find (fun e => classList_contains (classList d e) name) (docOrder d).
Proof. reflexivity. Qed.

(** The trace of [place]: its call, then at most the scroll. *)
Lemma place_calls d w :
  exists w' tl, place d w = Ok (tt, w') /\ trace w' = trace w ++ Called MPlace :: tl /\
    (tl = [] \/ exists r, tl = [scrollTo d r]).
Proof.
  destruct (place_outcome d w) as (w' & Hp & _ & _ & H).
  destruct (effectiveTarget d w) as [e|].
  - destruct H as (_ & Ht & _). exists w', [scrollTo d (getAbsoluteElementRect d e)].
    eauto.
  - destruct H as (_ & _ & Ht). exists w', []. eauto.
Qed.

Lemma move_calls d w :
  exists w' tl, move d w = Ok (tt, w') /\ trace w' = trace w ++ Called MMove :: tl /\
    (tl = [] \/ exists r, tl = [scrollTo d r]).
Proof.
  destruct (move_outcome d w) as (w' & Hp & _ & _ & H).
  destruct (effectiveTarget d w) as [e|]; [cbn in H; destruct (marked d w e)|].
  - destruct H as (_ & _ & Ht). exists w', [scrollTo d (getAbsoluteElementRect d e)].
    eauto.
  - destruct H as (_ & _ & Ht). exists w', []. eauto.
  - destruct H as (_ & _ & Ht). exists w', []. eauto.
Qed.

Lemma no_call_after d (tl : list Effect) m :
  (tl = [] \/ exists r, tl = [scrollTo d r]) ->
  ~ In (Called m) tl /\ occurrences (isCall m) tl = 0.
Proof.
  intros [->|[r ->]]; cbn; split; auto.
  intros [H|H]; [discriminate H|destruct H].
Qed.

(** ** The claims on [focus], [place] and [move] *)

(** C3. A call of [focus] is a call of [place] when there is no tracked
    element or the overlay is hidden ([style.display] is ['none']), and a call
    of [move] in every other case: its whole outcome is the one of that
    method, run in the world where [focus] has left its own trace entry.  On
    the trace, [place] is called exactly in the first case and [move] exactly
    in the second, and exactly one of the two is called, once. *)
Theorem focus_dispatch d w :
  let w1 := with_trace (trace w ++ [Called MFocus]) w in
  (focused_ w = None \/ hidden w -> focus d w = place d w1) /\
  (~ (focused_ w = None \/ hidden w) -> focus d w = move d w1) /\
  exists w' rest,
    focus d w = Ok (tt, w') /\
    trace w' = trace w ++ Called MFocus :: rest /\
    (In (Called MPlace) rest <-> focused_ w = None \/ hidden w) /\
    (In (Called MMove) rest <-> ~ (focused_ w = None \/ hidden w)) /\
    occurrences (isCall MPlace) rest + occurrences (isCall MMove) rest = 1.
Proof.
  intros w1. pose proof (focusPlaces_true w) as Hc.
  split; [|split].
  { intros Hcond. rewrite focus_unfold. fold w1.
    rewrite (proj2 Hc Hcond). reflexivity. }
  { intros Hcond. rewrite focus_unfold. fold w1.
    destruct (focusPlaces w); [|reflexivity].
    destruct Hcond. apply Hc. reflexivity. }
  rewrite focus_unfold. fold w1.
  destruct (focusPlaces w).
  - destruct (place_calls d w1) as (w' & tl & Hp & Ht & Htl).
    destruct (no_call_after d tl MMove Htl) as [Hn1 Ho1].
    destruct (no_call_after d tl MPlace Htl) as [Hn2 Ho2].
    exists w', (Called MPlace :: tl). split; [exact Hp|].
    split; [rewrite Ht; cbn; rewrite <- app_assoc; reflexivity|].
    assert (Hcond : focused_ w = None \/ hidden w) by (apply Hc; reflexivity).
    repeat split.
    + intros _. exact Hcond.
    + intros _. left. reflexivity.
    + intros [H|H]; [discriminate H|]. intros _. exact (Hn1 H).
    + intros H. destruct (H Hcond).
    + unfold occurrences in *. cbn. rewrite Ho1, Ho2. reflexivity.
  - destruct (move_calls d w1) as (w' & tl & Hp & Ht & Htl).
    destruct (no_call_after d tl MMove Htl) as [Hn1 Ho1].
    destruct (no_call_after d tl MPlace Htl) as [Hn2 Ho2].
    exists w', (Called MMove :: tl). split; [exact Hp|].
    split; [rewrite Ht; cbn; rewrite <- app_assoc; reflexivity|].
    assert (Hcond : ~ (focused_ w = None \/ hidden w)).
    { intros H. apply Hc in H. discriminate H. }
    repeat split.
    + intros [H|H]; [discriminate H|]. destruct (Hn2 H).
    + intros H. destruct (Hcond H).
    + intros _. exact Hcond.
    + intros _. left. reflexivity.
    + unfold occurrences in *. cbn. rewrite Ho1, Ho2. reflexivity.
Qed.

(** C7. Whatever the transition duration of the overlay is before a call of
    [place], it is the same after the call: when no target exists, when the
    target is placed and hidden, and when it is placed and shown. *)
Theorem place_restores_transitionDuration d w :
  exists w', place d w = Ok (tt, w') /\
    transitionDuration (style (cursor_ w')) = transitionDuration (style (cursor_ w)).
Proof.
  destruct (place_outcome d w) as (w' & Hp & _ & Htd & _). eauto.
Qed.

(** C5. When [place] or [move] positions the overlay on an effective target
    whose absolute rectangle is [{top, left, width, height}] (the bounding
    rectangle moved by the page offsets), the window is scrolled to
    [top - innerHeight * 0.5 + height * 0.5] with the current horizontal offset
    [pageXOffset] passed on as it is, the overlay's width and height become
    those of the rectangle, and its transform translates it to
    [(left - parseInt(borderLeftWidth, 10), top - parseInt(borderTopWidth,
    10))]: the border widths are the whole numbers that [parseInt] reads
    from the computed style of the overlay, the widths themselves only when
    they are whole numbers of pixels.  [place] does so for every effective
    target, [move] for one that carries the focus class. *)
Theorem placement_geometry d w e :
  effectiveTarget d w = Some e ->
  let r := getAbsoluteElementRect d e in
  let scroll :=
    WindowScroll (pageXOffset d)
      (num_add (num_sub (r_top r) (num_mul (innerHeight d) num_half))
               (num_mul (r_height r) num_half))
      "smooth" in
  let translate :=
    "translate3d("
      +:+ num_toString (num_sub (r_left r) (parseInt10 (cursorBorderLeftWidth d)))
      +:+ "px, "
      +:+ num_toString (num_sub (r_top r) (parseInt10 (cursorBorderTopWidth d)))
      +:+ "px, 0)" in
  r = {| r_top := num_add (r_top (boundingClientRect d e)) (pageYOffset d);
         r_left := num_add (r_left (boundingClientRect d e)) (pageXOffset d);
         r_width := r_width (boundingClientRect d e);
         r_height := r_height (boundingClientRect d e) |} /\
  (exists w', place d w = Ok (tt, w') /\
     trace w' = trace w ++ [Called MPlace; scroll] /\
     width (style (cursor_ w')) = num_toString (r_width r) +:+ "px" /\
     height (style (cursor_ w')) = num_toString (r_height r) +:+ "px" /\
     transform (style (cursor_ w')) = translate) /\
  (marked d w e = true ->
   exists w', move d w = Ok (tt, w') /\
     trace w' = trace w ++ [Called MMove; scroll] /\
     width (style (cursor_ w')) = num_toString (r_width r) +:+ "px" /\
     height (style (cursor_ w')) = num_toString (r_height r) +:+ "px" /\
     transform (style (cursor_ w')) = translate).
Proof.
  intros He r scroll translate. split; [reflexivity|]. split.
  - destruct (place_outcome d w) as (w' & Hp & _ & _ & H).
    rewrite He in H. destruct H as (Hg & Ht & _).
    exists w'. unfold geometry, geometryOf in Hg. inversion Hg. auto.
  - intros Hm. destruct (move_outcome d w) as (w' & Hp & _ & _ & H).
    rewrite He in H. cbn in H. rewrite Hm in H. destruct H as (_ & Hg & Ht).
    exists w'. unfold geometry, geometryOf in Hg. inversion Hg. auto.
Qed.

(** C4, as the code has it. In both [place] and [move] the effective target
    is the tracked element when [isInDocumentBody] accepts it, and otherwise
    the first element of the whole document, in tree order, that carries the
    focus class ([document.querySelector], not a query of the root subtree).
    A tracked element that is not attached plays no part: the outcome is the
    one of a manager that tracks nothing.  The geometry is the one of the
    effective target, and when there is none the overlay is hidden and the
    call ends with the geometry as it was and no scroll. *)
Theorem effective_target_resolution d w :
  effectiveTarget d w =
    (if isInDocumentBody d (focused_ w) then focused_ w
     else find (fun e => classList_contains (classList d e) (focusClassName_ w))
               (docOrder d)) /\
  (exists w', place d w = Ok (tt, w') /\
     (if isInDocumentBody d (focused_ w) then True
      else place d (with_focused None w) = Ok (tt, with_focused None w')) /\
     match effectiveTarget d w with
     | Some e => geometry w' = geometryOf d (getAbsoluteElementRect d e)
     | None => hidden w' /\ geometry w' = geometry w /\
               trace w' = trace w ++ [Called MPlace]
     end) /\
  (exists w', move d w = Ok (tt, w') /\
     (if isInDocumentBody d (focused_ w) then True
      else move d (with_focused None w) = Ok (tt, with_focused None w')) /\
     match effectiveTarget d w with
     | Some e =>
         if marked d w e
         then geometry w' = geometryOf d (getAbsoluteElementRect d e)
         else hidden w' /\ geometry w' = geometry w
     | None => hidden w' /\ geometry w' = geometry w /\
               trace w' = trace w ++ [Called MMove]
     end).
Proof.
  split; [reflexivity|]. split.
  - destruct (place_outcome d w) as (w' & Hp & _ & _ & H).
    exists w'. split; [exact Hp|]. split.
    + revert Hp. unfold place. unfold_steps. cbn.
      destruct (isInDocumentBody d (focused_ w)); [trivial|].
      destruct (querySelector d _) as [e|]; cbn.
      * destruct (negb _); cbn; intros [= <-]; reflexivity.
      * intros [= <-]; reflexivity.
    + destruct (effectiveTarget d w); cbn in H; intuition.
  - destruct (move_outcome d w) as (w' & Hp & _ & _ & H).
    exists w'. split; [exact Hp|]. split.
    + revert Hp. unfold move. unfold_steps. cbn.
      destruct (isInDocumentBody d (focused_ w)); [trivial|].
      destruct (querySelector d _) as [e|]; cbn.
      * destruct (negb _); cbn; intros [= <-]; reflexivity.
      * intros [= <-]; reflexivity.
    + destruct (effectiveTarget d w); [cbn in H; destruct (marked d w _)|]; intuition.
Qed.

(** ** The observer callback *)

(** [focus] always completes.  It leaves the manager's fields and the
    transition duration alone; the overlay ends shown on an effective target
    that carries the focus class, hidden otherwise. *)
Lemma focus_outcome d w :
  exists w' rest, focus d w = Ok (tt, w') /\ sameManager w w' /\
    transitionDuration (style (cursor_ w')) = transitionDuration (style (cursor_ w)) /\
    trace w' = trace w ++ Called MFocus :: rest /\
    occurrences (isCall MFocus) rest = 0 /\
    occurrences isNotification rest = 0 /\
    match effectiveTarget d w with
    | None => hidden w' /\ geometry w' = geometry w /\ occurrences isScroll rest = 0
    | Some e =>
        if marked d w e
        then visible w' /\ geometry w' = geometryOf d (getAbsoluteElementRect d e) /\
             occurrences isScroll rest = 1
        else hidden w' /\ occurrences isScroll rest <= 1
    end.
Proof.
  rewrite focus_unfold.
  set (w1 := with_trace (trace w ++ [Called MFocus]) w).
  assert (Hs : sameManager w w1) by (repeat split).
  change (effectiveTarget d w) with (effectiveTarget d w1).
  change (geometry w) with (geometry w1).
  change (transitionDuration (style (cursor_ w)))
    with (transitionDuration (style (cursor_ w1))).
  assert (Hm : forall e, marked d w e = marked d w1 e) by reflexivity.
  assert (Ht1 : forall l, trace w1 ++ l = trace w ++ Called MFocus :: l).
  { intros l. cbn. rewrite <- app_assoc. reflexivity. }
  destruct (focusPlaces w).
  - destruct (place_outcome d w1) as (w' & Hp & Hs' & Htd & H).
    destruct (effectiveTarget d w1) as [e|].
    + cbn in H. destruct H as (Hg & Ht & Hd). rewrite Ht1 in Ht.
      exists w'. eexists. split; [exact Hp|]. split; [exact (sameManager_trans _ _ _ Hs Hs')|].
      split; [exact Htd|]. split; [exact Ht|]. split; [reflexivity|].
      split; [reflexivity|]. rewrite Hm. unfold visible, hidden.
      destruct (marked d w1 e); cbn; auto.
    + destruct H as (Hh & Hg & Ht). rewrite Ht1 in Ht.
      exists w'. eexists. split; [exact Hp|]. split; [exact (sameManager_trans _ _ _ Hs Hs')|].
      split; [exact Htd|]. split; [exact Ht|]. cbn. auto.
  - destruct (move_outcome d w1) as (w' & Hp & Hs' & Htd & H).
    destruct (effectiveTarget d w1) as [e|].
    + cbn in H. rewrite Hm. destruct (marked d w1 e).
      * destruct H as (Hv & Hg & Ht). rewrite Ht1 in Ht.
        exists w'. eexists. split; [exact Hp|].
        split; [exact (sameManager_trans _ _ _ Hs Hs')|].
        split; [exact Htd|]. split; [exact Ht|]. cbn. auto.
      * destruct H as (Hv & Hg & Ht). rewrite Ht1 in Ht.
        exists w'. eexists. split; [exact Hp|].
        split; [exact (sameManager_trans _ _ _ Hs Hs')|].
        split; [exact Htd|]. split; [exact Ht|]. cbn. auto.
    + destruct H as (Hh & Hg & Ht). rewrite Ht1 in Ht.
      exists w'. eexists. split; [exact Hp|]. split; [exact (sameManager_trans _ _ _ Hs Hs')|].
      split; [exact Htd|]. split; [exact Ht|]. cbn. auto.
Qed.

(** The scan stops at the first record whose target carries the class. *)
Lemma scanRecords_Some d cls rs t :
  scanRecords d cls rs = Some t <->
  exists pre r post, rs = pre ++ r :: post /\
    (forall x, In x pre -> classList_contains (classList d (target x)) cls = false) /\
    classList_contains (classList d (target r)) cls = true /\ t = target r.
Proof.
  induction rs as [|m rest IH]; cbn.
  - split; [discriminate|]. intros (pre & r & post & H & _). destruct pre; discriminate.
  - destruct (classList_contains (classList d (target m)) cls) eqn:Em.
    + split.
      * intros [= <-]. exists [], m, rest. cbn. tauto.
      * intros (pre & r & post & H & Hpre & Hr & ->).
        destruct pre as [|p pre]; cbn in H; injection H as <- ->; [reflexivity|].
        rewrite (Hpre m) in Em; [discriminate|now left].
    + rewrite IH. split.
      * intros (pre & r & post & -> & Hpre & Hr & ->).
        exists (m :: pre), r, post. cbn. repeat split; auto.
        intros x [<-|Hx]; auto.
      * intros (pre & r & post & H & Hpre & Hr & ->).
        destruct pre as [|p pre]; cbn in H; injection H as <- ->.
        -- congruence.
        -- exists pre, r, post. repeat split; auto. intros x Hx. apply Hpre. now right.
Qed.

Lemma scanRecords_None d cls rs :
  scanRecords d cls rs = None <->
  forall x, In x rs -> classList_contains (classList d (target x)) cls = false.
Proof.
  induction rs as [|m rest IH]; cbn.
  - split; [intros _ x []|reflexivity].
  - destruct (classList_contains (classList d (target m)) cls) eqn:Em.
    + split; [discriminate|]. intros H. rewrite (H m) in Em; [discriminate|now left].
    + rewrite IH. split.
      * intros H x [<-|Hx]; auto.
      * intros H x Hx. apply H. now right.
Qed.

(** The callback on a batch without a record whose target carries the class:
    only [display] changes. *)
Lemma callback_none d rs w :
  scanRecords d (focusClassName_ w) rs = None ->
  exists w', observerCallback d rs w = Ok (tt, w') /\ sameManager w w' /\
    hidden w' /\ geometry w' = geometry w /\ trace w' = trace w.
Proof.
  intros H. unfold observerCallback. unfold_steps. cbn. rewrite H. cbn.
  eexists. split; [reflexivity|]. repeat split.
Qed.

(** The callback on a batch whose first carrier is [t], while frozen. *)
Lemma callback_frozen d rs w t :
  scanRecords d (focusClassName_ w) rs = Some t ->
  freezed_ w = true ->
  observerCallback d rs w
  = Ok (tt, with_trace (trace w ++ notification w t) (with_focused (Some t) w)).
Proof.
  intros H Hf. unfold observerCallback, notification. unfold_steps. cbn.
  rewrite H, Hf. cbn. rewrite <- app_assoc. reflexivity.
Qed.

(** The callback on a batch whose first carrier is [t], while not frozen. *)
Lemma callback_running d rs w t w1 :
  scanRecords d (focusClassName_ w) rs = Some t ->
  freezed_ w = false ->
  focus d (with_focused (Some t) w) = Ok (tt, w1) ->
  observerCallback d rs w
  = Ok (tt, with_trace (trace w1 ++ notification w1 t) w1).
Proof.
  intros H Hf Hfoc. unfold observerCallback, notification. unfold_steps. cbn -[focus].
  rewrite H, Hf. cbn -[focus]. rewrite Hfoc. cbn. rewrite <- app_assoc. reflexivity.
Qed.

Lemma notification_listeners w w' t :
  eventListeners_ w' = eventListeners_ w -> notification w' t = notification w t.
Proof. unfold notification. intros ->. reflexivity. Qed.

(** An effective target is the tracked element or carries the class. *)
Lemma effectiveTarget_Some d w e :
  effectiveTarget d w = Some e -> focused_ w = Some e \/ marked d w e = true.
Proof.
  unfold effectiveTarget. destruct (isInDocumentBody d (focused_ w)); [auto|].
  rewrite querySelector_class. intros H. apply find_some in H. right. apply H.
Qed.

Lemma effectiveTarget_None d w e :
  effectiveTarget d w = None -> In e (docOrder d) -> marked d w e = false.
Proof.
  unfold effectiveTarget. destruct (isInDocumentBody d (focused_ w)) eqn:E.
  - intros H. rewrite H in E. discriminate.
  - rewrite querySelector_class. intros H Hin. exact (find_none _ _ H e Hin).
Qed.

Lemma visible_not_hidden w : visible w -> ~ hidden w.
Proof. unfold visible, hidden. intros -> H. discriminate. Qed.

(** The callback always completes.  Its outcome, by the result of the scan
    and the frozen flag. *)
Lemma callback_outcome d rs w :
  exists w', observerCallback d rs w = Ok (tt, w') /\ sameFrame w w' /\
    match scanRecords d (focusClassName_ w) rs with
    | None =>
        focused_ w' = focused_ w /\ hidden w' /\ geometry w' = geometry w /\
        trace w' = trace w
    | Some t =>
        focused_ w' = Some t /\
        if freezed_ w
        then cursor_ w' = cursor_ w /\ trace w' = trace w ++ notification w t
        else exists w1 rest,
            focus d (with_focused (Some t) w) = Ok (tt, w1) /\
            cursor_ w' = cursor_ w1 /\
            trace w1 = trace w ++ Called MFocus :: rest /\
            trace w' = trace w1 ++ notification w t /\
            occurrences isNotification rest = 0
    end.
Proof.
  destruct (scanRecords d (focusClassName_ w) rs) as [t|] eqn:Es.
  - destruct (freezed_ w) eqn:Ef.
    + rewrite (callback_frozen d rs w t Es Ef). eexists. split; [reflexivity|].
      cbn. repeat split.
    + destruct (focus_outcome d (with_focused (Some t) w))
        as (w1 & rest & Hfoc & [Hfr Hfo] & _ & Ht & _ & Hn & _).
      rewrite (callback_running d rs w t w1 Es Ef Hfoc).
      eexists. split; [reflexivity|]. split; [exact Hfr|]. split; [exact Hfo|].
      exists w1, rest. split; [exact Hfoc|]. split; [reflexivity|].
      split; [exact Ht|]. split; [|exact Hn].
      cbn. f_equal. apply notification_listeners. apply Hfr.
  - destruct (callback_none d rs w Es) as (w' & Hc & [Hfr Hfo] & Hh & Hg & Ht).
    exists w'. split; [exact Hc|]. split; [exact Hfr|]. auto.
Qed.

Lemma resume_unfold d w : resume d w = focus d (with_freezed false w).
Proof. reflexivity. Qed.

Lemma with_freezed_same w : freezed_ w = false -> with_freezed false w = w.
Proof. destruct w; cbn; intros ->; reflexivity. Qed.

(** After [focus] the overlay is shown or hidden, and shown exactly when the
    effective target exists and carries the focus class. *)
Lemma focus_visible d w w' :
  focus d w = Ok (tt, w') ->
  (visible w' \/ hidden w') /\
  (visible w' <-> exists e, effectiveTarget d w = Some e /\ marked d w e = true).
Proof.
  intros Hfoc.
  destruct (focus_outcome d w) as (w'' & rest & Hfoc' & _ & _ & _ & _ & _ & H).
  rewrite Hfoc in Hfoc'. injection Hfoc' as <-.
  destruct (effectiveTarget d w) as [e|].
  - destruct (marked d w e) eqn:Em.
    + destruct H as (Hv & _). split; [auto|]. split; eauto.
    + destruct H as (Hh & _). split; [auto|]. split.
      * intros Hv. destruct (visible_not_hidden _ Hv Hh).
      * intros (e' & [= <-] & Hm). congruence.
  - destruct H as (Hh & _). split; [auto|]. split.
    + intros Hv. destruct (visible_not_hidden _ Hv Hh).
    + intros (e' & He & _). discriminate.
Qed.

(** ** The claims on the observer callback, [freeze] and [resume] *)

(** C6. For every batch, the callback completes and the element it selects
    and tracks is the target of the first record, in batch order, whose target
    carries the focus class at that moment (the order of the elements in the
    document plays no part); when no record of the batch has such a target the
    overlay is hidden. *)
Theorem callback_selects_first_in_batch d rs w :
  exists w', observerCallback d rs w = Ok (tt, w') /\
    (forall pre r post,
        rs = pre ++ r :: post ->
        (forall x, In x pre -> marked d w (target x) = false) ->
        marked d w (target r) = true ->
        focused_ w' = Some (target r)) /\
    ((forall x, In x rs -> marked d w (target x) = false) -> hidden w').
Proof.
  destruct (callback_outcome d rs w) as (w' & Hc & _ & H).
  exists w'. split; [exact Hc|]. split.
  - intros pre r post Hrs Hpre Hr.
    assert (Es : scanRecords d (focusClassName_ w) rs = Some (target r)).
    { apply scanRecords_Some. exists pre, r, post. auto. }
    rewrite Es in H. apply H.
  - intros Hnone. apply scanRecords_None in Hnone. rewrite Hnone in H. apply H.
Qed.

(** C10. For every batch in which no record's target carries the focus class,
    the callback hides the overlay, leaves the tracked element as it was
    ([getFocusedElement] still returns it) and adds nothing to the trace: no
    listener is called. *)
Theorem batch_without_carrier d rs w :
  (forall r, In r rs -> marked d w (target r) = false) ->
  exists w', observerCallback d rs w = Ok (tt, w') /\
    hidden w' /\
    focused_ w' = focused_ w /\
    getFocusedElement w' = Ok (focused_ w, w') /\
    trace w' = trace w /\
    occurrences isNotification (trace w') = occurrences isNotification (trace w).
Proof.
  intros Hnone. apply scanRecords_None in Hnone.
  destruct (callback_outcome d rs w) as (w' & Hc & _ & H).
  rewrite Hnone in H. destruct H as (Hf & Hh & _ & Ht).
  exists w'. repeat split; auto.
  - unfold getFocusedElement, gets. rewrite Hf. reflexivity.
  - rewrite Ht. reflexivity.
Qed.

(** C2. For every batch with a record whose target carries the focus class,
    the callback tracks the target selected from the batch and notifies the
    listeners of it once, frozen or not.  It calls [focus] only when the
    manager is not frozen: while frozen the overlay (geometry and visibility)
    is as before and the trace gets the notification only.  A later [resume]
    clears the flag and calls [focus] exactly once, which scrolls at most once
    and puts the overlay on the effective target when that one carries the
    class. *)
Theorem frozen_batch_then_resume d rs w :
  (exists r, In r rs /\ marked d w (target r) = true) ->
  exists t w',
    scanRecords d (focusClassName_ w) rs = Some t /\
    marked d w t = true /\
    observerCallback d rs w = Ok (tt, w') /\
    focused_ w' = Some t /\
    (exists mid, trace w' = trace w ++ mid ++ notification w t /\
                 occurrences isNotification mid = 0) /\
    (if freezed_ w
     then cursor_ w' = cursor_ w /\ trace w' = trace w ++ notification w t
     else exists w1, focus d (with_focused (Some t) w) = Ok (tt, w1) /\
                     cursor_ w' = cursor_ w1 /\
                     trace w' = trace w1 ++ notification w t) /\
    (forall d', exists w2 rest,
        resume d' w' = Ok (tt, w2) /\
        resume d' w' = focus d' (with_freezed false w') /\
        freezed_ w2 = false /\
        focused_ w2 = Some t /\
        trace w2 = trace w' ++ Called MFocus :: rest /\
        occurrences (isCall MFocus) rest = 0 /\
        occurrences isScroll rest <= 1 /\
        match effectiveTarget d' w' with
        | Some e =>
            if marked d' w' e
            then visible w2 /\
                 geometry w2 = geometryOf d' (getAbsoluteElementRect d' e) /\
                 occurrences isScroll rest = 1
            else hidden w2
        | None => hidden w2 /\ geometry w2 = geometry w'
        end).
Proof.
  intros (r & Hin & Hr).
  destruct (scanRecords d (focusClassName_ w) rs) as [t|] eqn:Es.
  2:{ rewrite scanRecords_None in Es. unfold marked in Hr.
      rewrite (Es r Hin) in Hr. discriminate. }
  assert (Hmt : marked d w t = true).
  { apply scanRecords_Some in Es. destruct Es as (pre & r' & post & _ & _ & Hm & ->).
    exact Hm. }
  destruct (callback_outcome d rs w) as (w' & Hc & Hfr & H).
  rewrite Es in H. destruct H as (Hfo & H).
  exists t, w'. split; [reflexivity|]. split; [exact Hmt|]. split; [exact Hc|].
  split; [exact Hfo|]. split; [|split].
  - destruct (freezed_ w).
    + destruct H as (_ & Ht). exists []. cbn. auto.
    + destruct H as (w1 & rest & _ & _ & Ht1 & Ht & Hn).
      exists (Called MFocus :: rest). split; [|exact Hn].
      rewrite Ht, Ht1, <- app_assoc. reflexivity.
  - destruct (freezed_ w); [exact H|].
    destruct H as (w1 & rest & Hfoc & Hcur & _ & Ht & _). eauto.
  - intros d'.
    destruct (focus_outcome d' (with_freezed false w'))
      as (w2 & rest & Hfoc & [Hfr2 Hfo2] & _ & Ht2 & Hcf & _ & Ho).
    exists w2, rest. split; [exact Hfoc|]. split; [reflexivity|].
    split; [apply Hfr2|]. split; [rewrite Hfo2; exact Hfo|].
    split; [exact Ht2|]. split; [exact Hcf|].
    change (effectiveTarget d' (with_freezed false w')) with (effectiveTarget d' w') in Ho.
    change (geometry (with_freezed false w')) with (geometry w') in Ho.
    destruct (effectiveTarget d' w') as [e|].
    + change (marked d' (with_freezed false w') e) with (marked d' w' e) in Ho.
      destruct (marked d' w' e).
      * destruct Ho as (Hv & Hg & Hs). rewrite Hs. auto.
      * destruct Ho as (Hh & Hs). auto.
    + destruct Ho as (Hh & Hg & Hs). rewrite Hs. auto.
Qed.

(** After [place] the overlay is shown or hidden, and shown exactly when the
    effective target exists and carries the focus class. *)
Lemma place_visible d w :
  exists w', place d w = Ok (tt, w') /\
    (visible w' \/ hidden w') /\
    (visible w' <-> exists e, effectiveTarget d w = Some e /\ marked d w e = true).
Proof.
  destruct (place_outcome d w) as (w' & Hp & _ & _ & H).
  exists w'. split; [exact Hp|].
  destruct (effectiveTarget d w) as [e|].
  - cbn in H. destruct H as (_ & _ & Hd). unfold visible, hidden. rewrite Hd.
    destruct (marked d w e) eqn:Em.
    + split; [auto|]. split; eauto.
    + split; [auto|]. split; [discriminate|].
      intros (e' & [= <-] & Hm). congruence.
  - destruct H as (Hh & _). split; [auto|]. split.
    + intros Hv. destruct (visible_not_hidden _ Hv Hh).
    + intros (e' & He & _). discriminate.
Qed.

(** The same after [move]. *)
Lemma move_visible d w :
  exists w', move d w = Ok (tt, w') /\
    (visible w' \/ hidden w') /\
    (visible w' <-> exists e, effectiveTarget d w = Some e /\ marked d w e = true).
Proof.
  destruct (move_outcome d w) as (w' & Hp & _ & _ & H).
  exists w'. split; [exact Hp|].
  destruct (effectiveTarget d w) as [e|].
  - cbn in H. destruct (marked d w e) eqn:Em.
    + destruct H as (Hv & _). split; [auto|]. split; eauto.
    + destruct H as (Hh & _). split; [auto|]. split.
      * intros Hv. destruct (visible_not_hidden _ Hv Hh).
      * intros (e' & [= <-] & Hm). congruence.
  - destruct H as (Hh & _). split; [auto|]. split.
    + intros Hv. destruct (visible_not_hidden _ Hv Hh).
    + intros (e' & He & _). discriminate.
Qed.

(** C1, as the code has it.  After [focus], and likewise after a direct
    [place], [move] or [resume], the overlay is visible exactly when the
    effective target exists and carries the focus class.  After a batch: when no record's target
    carries the class the overlay is hidden, whatever other elements carry
    it; when the scan selects [t] and the manager is frozen, the visibility
    is as before; when it selects [t] and the manager is not frozen, the
    overlay is visible exactly when [t] is attached or some element of the
    document carries the class. *)
Theorem visibility_after_processing d rs w :
  (exists w', focus d w = Ok (tt, w') /\
     (visible w' \/ hidden w') /\
     (visible w' <-> exists e, effectiveTarget d w = Some e /\ marked d w e = true)) /\
  (exists w', observerCallback d rs w = Ok (tt, w') /\
     match scanRecords d (focusClassName_ w) rs with
     | None => hidden w'
     | Some t =>
         if freezed_ w
         then display (style (cursor_ w')) = display (style (cursor_ w))
         else (visible w' \/ hidden w') /\
              (visible w' <->
               isInDocumentBody d (Some t) = true \/
               exists e, In e (docOrder d) /\ marked d w e = true)
     end) /\
  (exists w', place d w = Ok (tt, w') /\
     (visible w' \/ hidden w') /\
     (visible w' <-> exists e, effectiveTarget d w = Some e /\ marked d w e = true)) /\
  (exists w', move d w = Ok (tt, w') /\
     (visible w' \/ hidden w') /\
     (visible w' <-> exists e, effectiveTarget d w = Some e /\ marked d w e = true)) /\
  (exists w', resume d w = Ok (tt, w') /\
     (visible w' \/ hidden w') /\
     (visible w' <-> exists e, effectiveTarget d w = Some e /\ marked d w e = true)).
Proof.
  split; [|split; [|split; [|split]]].
  3: exact (place_visible d w).
  3: exact (move_visible d w).
  3:{ rewrite resume_unfold.
      destruct (focus_outcome d (with_freezed false w)) as (w' & rest & Hfoc & _).
      exists w'. split; [exact Hfoc|].
      exact (focus_visible d (with_freezed false w) w' Hfoc). }
  - destruct (focus_outcome d w) as (w' & rest & Hfoc & _).
    exists w'. split; [exact Hfoc|]. exact (focus_visible d w w' Hfoc).
  - destruct (callback_outcome d rs w) as (w' & Hc & Hfr & H).
    exists w'. split; [exact Hc|].
    destruct (scanRecords d (focusClassName_ w) rs) as [t|] eqn:Es; [|apply H].
    destruct H as (Hfo & H). destruct (freezed_ w).
    { destruct H as (-> & _). reflexivity. }
    destruct H as (w1 & rest & Hfoc & Hcur & _).
    assert (Hmt : marked d w t = true).
    { apply scanRecords_Some in Es. destruct Es as (pre & r' & post & _ & _ & Hm & ->).
      exact Hm. }
    destruct (focus_visible _ _ _ Hfoc) as (Hvh & Hv).
    unfold visible, hidden in *. rewrite Hcur. split; [exact Hvh|].
    rewrite Hv. unfold effectiveTarget. cbn [focused_ with_focused].
    change (focusClassName_ (with_focused (Some t) w)) with (focusClassName_ w).
    destruct (isInDocumentBody d (Some t)).
    + split; [auto|]. intros _. exists t. auto.
    + rewrite querySelector_class. split.
      * intros (e & He & Hm). right. exists e. apply find_some in He.
        split; [apply He|exact Hm].
      * intros [Hf|(e & Hin & Hm)]; [discriminate|].
        destruct (find _ (docOrder d)) as [e'|] eqn:Ef.
        -- exists e'. split; [reflexivity|]. apply find_some in Ef. apply Ef.
        -- pose proof (find_none _ _ Ef e Hin) as Hno. cbn in Hno.
           unfold marked in Hm. congruence.
Qed.

(** What [focus] leaves in the trace: its call, the call of [place] or
    [move], and the scroll when that method positions the overlay. *)
Lemma focus_trace d w w' :
  focus d w = Ok (tt, w') -> trace w' = trace w ++ Called MFocus :: focusSteps d w.
Proof.
  rewrite focus_unfold. unfold focusSteps.
  set (w1 := with_trace (trace w ++ [Called MFocus]) w).
  change (effectiveTarget d w) with (effectiveTarget d w1).
  assert (Ht1 : forall l, trace w1 ++ l = trace w ++ Called MFocus :: l).
  { intros l. cbn. rewrite <- app_assoc. reflexivity. }
  destruct (focusPlaces w).
  - destruct (place_outcome d w1) as (w2 & -> & _ & _ & H). intros [= <-].
    destruct (effectiveTarget d w1) as [e|].
    + cbn in H. destruct H as (_ & Ht & _). rewrite Ht. apply Ht1.
    + destruct H as (_ & _ & Ht). rewrite Ht. apply Ht1.
  - destruct (move_outcome d w1) as (w2 & -> & _ & _ & H). intros [= <-].
    destruct (effectiveTarget d w1) as [e|].
    + cbn in H. change (marked d w e) with (marked d w1 e).
      destruct (marked d w1 e); destruct H as (_ & _ & Ht); rewrite Ht; apply Ht1.
    + destruct H as (_ & _ & Ht). rewrite Ht. apply Ht1.
Qed.

(** C8, as the code has it.  [resume] on a manager that is not frozen is a
    call of [focus]: the frozen flag stays cleared and the tracked element is
    the same, while the overlay is computed again from the document as it is
    then: it ends visible exactly when the effective target exists and
    carries the focus class, with the geometry of that target.  The trace
    gets the call of [focus], the call of [place] or [move], and one
    [window.scroll] towards the effective target when [place] runs and that
    target exists, or [move] runs and it carries the class; without an
    effective target there is no scroll. *)
Theorem resume_when_running d w :
  freezed_ w = false ->
  resume d w = focus d w /\
  exists w', resume d w = Ok (tt, w') /\
    freezed_ w' = false /\
    focused_ w' = focused_ w /\
    (visible w' \/ hidden w') /\
    (visible w' <-> exists e, effectiveTarget d w = Some e /\ marked d w e = true) /\
    match effectiveTarget d w with
    | Some e =>
        if marked d w e
        then geometry w' = geometryOf d (getAbsoluteElementRect d e)
        else hidden w'
    | None => geometry w' = geometry w
    end /\
    trace w' = trace w ++ Called MFocus :: focusSteps d w /\
    occurrences isScroll (focusSteps d w)
    = match effectiveTarget d w with
      | Some e => if focusPlaces w || marked d w e then 1 else 0
      | None => 0
      end.
Proof.
  intros Hf. rewrite resume_unfold, (with_freezed_same w Hf). split; [reflexivity|].
  destruct (focus_outcome d w) as (w' & rest & Hfoc & [Hfr Hfo] & _ & _ & _ & _ & H).
  destruct (focus_visible d w w' Hfoc) as (Hvh & Hv).
  exists w'. split; [exact Hfoc|]. split; [rewrite <- Hf; apply Hfr|].
  split; [exact Hfo|]. split; [exact Hvh|]. split; [exact Hv|].
  split; [|split].
  - destruct (effectiveTarget d w) as [e|]; [destruct (marked d w e)|]; apply H.
  - exact (focus_trace d w w' Hfoc).
  - unfold focusSteps.
    destruct (focusPlaces w); destruct (effectiveTarget d w) as [e|];
      try destruct (marked d w e); reflexivity.
Qed.

(** ** Stopping *)

Lemma sameFrame_trans w1 w2 w3 :
  sameFrame w1 w2 -> sameFrame w2 w3 -> sameFrame w1 w3.
Proof. unfold sameFrame. intros H1 H2. intuition congruence. Qed.

Lemma sameFrame_oneObserver w w' : sameFrame w w' -> oneObserver w -> oneObserver w'.
Proof.
  unfold sameFrame, oneObserver. intros H [H1 H2].
  destruct H as (_ & _ & _ & _ & -> & _ & -> & _). auto.
Qed.

Lemma notifyEach_frame (callback : M unit) :
  (forall w, exists w', callback w = Ok (tt, w') /\ sameFrame w w') ->
  forall flags w, exists w', notifyEach flags callback w = Ok (tt, w') /\ sameFrame w w'.
Proof.
  intros Hcb flags. induction flags as [|b flags IH]; intros w; cbn.
  - exists w. split; [reflexivity|]. repeat split.
  - unfold bind. destruct b.
    + destruct (Hcb w) as (w1 & -> & H1). destruct (IH w1) as (w2 & -> & H2).
      exists w2. split; [reflexivity|]. exact (sameFrame_trans _ _ _ H1 H2).
    + cbn. exact (IH w).
Qed.

Lemma deliver_frame d rs w :
  exists w', deliver d rs w = Ok (tt, w') /\ sameFrame w w'.
Proof.
  unfold deliver, bind, gets. apply notifyEach_frame.
  intros w0. destruct (callback_outcome d rs w0) as (w' & Hc & Hfr & _). eauto.
Qed.

(** A stopped manager: its observer is disconnected and the overlay has no
    parent. *)
Lemma stop_outcome w w' :
  stop w = Ok (tt, w') ->
  parentNode (cursor_ w') = None /\ root_ w' = root_ w /\
  observer_ w' = observer_ w /\
  observers w' = match observer_ w with
                 | Some i => <[i:=false]> (observers w)
                 | None => observers w
                 end.
Proof.
  unfold stop, removeFromRoot_, disconnectFocus_, bind, gets, modify, throw, ret. cbn.
  destruct (bool_decide _); [|discriminate].
  destruct (observer_ w) eqn:Eo; cbn; rewrite ?Eo; intros [= <-]; cbn; auto.
Qed.

Lemma run_cons d a events w :
  run ((d, a) :: events) w
  = match step d a w with
    | Ok (_, w1) => run events w1
    | Throw e => Throw e
    end.
Proof. reflexivity. Qed.

(** No callback runs once the observer is disconnected. *)
Lemma deliver_disconnected w :
  observers w = [false] -> forall d rs, deliver d rs w = Ok (tt, w).
Proof. intros Hf d rs. unfold deliver, bind, gets. rewrite Hf. reflexivity. Qed.

(** [stop] throws when the overlay has no parent. *)
Lemma stop_detached w : parentNode (cursor_ w) = None -> stop w = Throw NotFoundError.
Proof.
  intros Hpar. unfold stop, removeFromRoot_, bind, gets, throw. rewrite Hpar.
  rewrite bool_decide_eq_false_2; [reflexivity|discriminate].
Qed.

(** Disconnecting a disconnected observer changes nothing. *)
Lemma disconnect_again w :
  observer_ w = Some 0 -> observers w = [false] -> disconnectFocus_ w = Ok (tt, w).
Proof.
  intros Ho Hf. unfold disconnectFocus_, bind, gets, modify, ret.
  rewrite Ho, Hf. destruct w; cbn in *. subst. reflexivity.
Qed.

(** Every action but [start] keeps the observer. *)
Lemma step_oneObserver d a w w' :
  a <> AStart -> oneObserver w -> step d a w = Ok (tt, w') -> oneObserver w'.
Proof.
  intros Ha Hinv. destruct a; cbn [step]; try congruence.
  - rewrite resume_unfold.
    destruct (focus_outcome d (with_freezed false w)) as (w1 & rest & -> & [Hfr _] & _).
    intros [= <-]. apply (sameFrame_oneObserver _ _ Hfr). exact Hinv.
  - intros Hs. apply stop_outcome in Hs. destruct Hs as (_ & _ & Ho & Hobs).
    destruct Hinv as [H1 H2]. split; [congruence|].
    rewrite Hobs, H1, length_insert. exact H2.
  - unfold freeze, modify. intros [= <-]. exact Hinv.
  - destruct (focus_outcome d w) as (w1 & rest & -> & [Hfr _] & _).
    intros [= <-]. exact (sameFrame_oneObserver _ _ Hfr Hinv).
  - destruct (place_outcome d w) as (w1 & -> & [Hfr _] & _).
    intros [= <-]. exact (sameFrame_oneObserver _ _ Hfr Hinv).
  - destruct (move_outcome d w) as (w1 & -> & [Hfr _] & _).
    intros [= <-]. exact (sameFrame_oneObserver _ _ Hfr Hinv).
  - unfold addEventListener, modify. intros [= <-]. exact Hinv.
  - unfold removeEventListener, modify. intros [= <-]. exact Hinv.
  - destruct (deliver_frame d mutationRecords w) as (w1 & -> & Hfr).
    intros [= <-]. exact (sameFrame_oneObserver _ _ Hfr Hinv).
Qed.

Lemma run_oneObserver events :
  Forall (fun da => snd da <> AStart) events ->
  forall w w', oneObserver w -> run events w = Ok (tt, w') -> oneObserver w'.
Proof.
  induction 1 as [|[d a] events Ha _ IH]; intros w w' Hinv; cbn.
  - unfold ret. intros [= <-]. exact Hinv.
  - unfold bind. destruct (step d a w) as [[[] w1]|e] eqn:Es; [|discriminate].
    intros Hr. apply (IH w1 w'); [|exact Hr].
    exact (step_oneObserver d a w w1 Ha Hinv Es).
Qed.

Lemma start_oneObserver d w w' :
  observers w = [] -> start d w = Ok (tt, w') -> oneObserver w'.
Proof.
  intros Hobs. unfold start. unfold bind at 1 2 3.
  unfold styleCursor_, appendToRoot_, observeFocus_. unfold_steps. cbn -[focus].
  rewrite Hobs. cbn -[focus].
  match goal with |- focus d ?w0 = _ -> _ =>
    destruct (focus_outcome d w0) as (w1 & rest & -> & [Hfr _] & _) end.
  intros [= <-]. apply (sameFrame_oneObserver _ _ Hfr). split; reflexivity.
Qed.

(** C9, as the code has it.  Take a manager started once, on which any
    actions but [start] have run, and stop it.  From then on no batch of
    mutations changes anything: the overlay, the tracked element and the
    trace (hence the listeners) stay as they are, and disconnecting again
    changes nothing.  A second [stop] however does not complete: the overlay
    is no longer a child of the root and [removeChild] throws
    [NotFoundError]. *)
Theorem stop_is_terminal dc d0 root cls acts w0 w w' :
  start d0 (constructor dc root cls) = Ok (tt, w0) ->
  Forall (fun da => snd da <> AStart) acts ->
  run acts w0 = Ok (tt, w) ->
  stop w = Ok (tt, w') ->
  (forall d rs, deliver d rs w' = Ok (tt, w')) /\
  (forall batches,
      run (map (fun b => (fst b, AMutations (snd b))) batches) w' = Ok (tt, w')) /\
  disconnectFocus_ w' = Ok (tt, w') /\
  stop w' = Throw NotFoundError.
Proof.
  intros Hstart Hacts Hrun Hstop.
  assert (Hinv : oneObserver w).
  { apply (run_oneObserver acts Hacts w0 w); [|exact Hrun].
    exact (start_oneObserver d0 (constructor dc root cls) w0 eq_refl Hstart). }
  destruct (stop_outcome w w' Hstop) as (Hpar & Hroot & Hobs & Hos).
  destruct Hinv as [Ho Hlen]. rewrite Ho in Hos, Hobs.
  assert (Hfalse : observers w' = [false]).
  { rewrite Hos. destruct (observers w) as [|b [|b' l]]; try discriminate. reflexivity. }
  pose proof (deliver_disconnected w' Hfalse) as Hdel.
  split; [exact Hdel|]. split; [|split].
  - induction batches as [|[d rs] batches IH]; [reflexivity|].
    cbn [map fst snd]. rewrite run_cons. change (step d (AMutations rs)) with (deliver d rs).
    rewrite Hdel. exact IH.
  - exact (disconnect_again w' Hobs Hfalse).
  - exact (stop_detached w' Hpar).
Qed.

End Properties.

(** * More properties: lifecycle, listeners, attachment *)

Section Lifecycle.
Context {N : JSNumber}.

Ltac unfold_prims :=
  unfold hideCursor_, showCursor_, scrollIntoView_, resizeCursorTo_, moveCursorTo_,
    trigger_, setStyle, log, bind, gets, modify, ret, throw.

(** ** What the actions keep *)

Lemma keeps_refl w : keeps w w.
Proof. unfold keeps. tauto. Qed.

Lemma keeps_trans w1 w2 w3 : keeps w1 w2 -> keeps w2 w3 -> keeps w1 w3.
Proof. unfold keeps. intros H1 H2. intuition congruence. Qed.

Lemma place_keeps d w : exists w', place d w = Ok (tt, w') /\ keeps w w'.
Proof.
  unfold place. unfold_prims. cbn.
  destruct (if isInDocumentBody d (focused_ w) then _ else _) as [e|]; cbn.
  - destruct (negb _); cbn; eexists; (split; [reflexivity|]);
      unfold keeps, styled, shownOrHidden, visible, hidden; cbn; tauto.
  - eexists. split; [reflexivity|].
    unfold keeps, styled, shownOrHidden, visible, hidden; cbn; tauto.
Qed.

Lemma move_keeps d w : exists w', move d w = Ok (tt, w') /\ keeps w w'.
Proof.
  unfold move. unfold_prims. cbn.
  destruct (if isInDocumentBody d (focused_ w) then _ else _) as [e|]; cbn.
  - destruct (negb _); cbn; eexists; (split; [reflexivity|]);
      unfold keeps, styled, shownOrHidden, visible, hidden; cbn; tauto.
  - eexists. split; [reflexivity|].
    unfold keeps, styled, shownOrHidden, visible, hidden; cbn; tauto.
Qed.

Lemma focus_keeps d w : exists w', focus d w = Ok (tt, w') /\ keeps w w'.
Proof.
  rewrite focus_unfold.
  set (w1 := with_trace (trace w ++ [Called MFocus]) w).
  assert (H1 : keeps w w1) by (unfold keeps; tauto).
  destruct (focusPlaces w).
  - destruct (place_keeps d w1) as (w' & -> & H2). eauto using keeps_trans.
  - destruct (move_keeps d w1) as (w' & -> & H2). eauto using keeps_trans.
Qed.

Lemma callback_keeps d rs w :
  exists w', observerCallback d rs w = Ok (tt, w') /\ keeps w w'.
Proof.
  destruct (scanRecords d (focusClassName_ w) rs) as [t|] eqn:Es.
  - assert (H0 : keeps w (with_focused (Some t) w)).
    { unfold keeps. split; [reflexivity|]. split; [reflexivity|]. split; [reflexivity|].
      split; [intros H; exact H|]. split; [intros H; exact H|].
      intros _. exists t. reflexivity. }
    destruct (freezed_ w) eqn:Ef.
    + rewrite (callback_frozen d rs w t Es Ef). eexists. split; [reflexivity|].
      eapply keeps_trans; [exact H0|]. unfold keeps. tauto.
    + destruct (focus_keeps d (with_focused (Some t) w)) as (w1 & Hfoc & H1).
      rewrite (callback_running d rs w t w1 Es Ef Hfoc). eexists. split; [reflexivity|].
      eapply keeps_trans; [exact H0|]. eapply keeps_trans; [exact H1|].
      unfold keeps. tauto.
  - unfold observerCallback. unfold_prims. cbn. rewrite Es. cbn.
    eexists. split; [reflexivity|].
    unfold keeps, styled, shownOrHidden, visible, hidden; cbn; tauto.
Qed.

Lemma notifyEach_keeps (callback : M unit) :
  (forall w, exists w', callback w = Ok (tt, w') /\ keeps w w') ->
  forall flags w, exists w', notifyEach flags callback w = Ok (tt, w') /\ keeps w w'.
Proof.
  intros Hcb flags. induction flags as [|b flags IH]; intros w; cbn.
  - exists w. split; [reflexivity|apply keeps_refl].
  - unfold bind. destruct b.
    + destruct (Hcb w) as (w1 & -> & H1). destruct (IH w1) as (w2 & -> & H2).
      exists w2. split; [reflexivity|]. exact (keeps_trans _ _ _ H1 H2).
    + cbn. exact (IH w).
Qed.

Lemma deliver_keeps d rs w : exists w', deliver d rs w = Ok (tt, w') /\ keeps w w'.
Proof.
  unfold deliver, bind, gets. apply notifyEach_keeps. intros w0. apply callback_keeps.
Qed.

(** [start] up to its call of [focus]. *)
Lemma start_unfold d w : start d w = focus d (readyToFocus w).
Proof. reflexivity. Qed.

Lemma classList_add_present cl token :
  classList_contains cl token = true -> classList_add cl token = cl.
Proof. unfold classList_add. intros ->. reflexivity. Qed.

Lemma readyToFocus_keeps w : keeps w (readyToFocus w).
Proof.
  unfold keeps, styled, shownOrHidden, visible, hidden. cbn. repeat split; auto.
  destruct H as (-> & _). reflexivity.
Qed.

Lemma start_keeps d w : exists w', start d w = Ok (tt, w') /\ keeps w w'.
Proof.
  rewrite start_unfold. destruct (focus_keeps d (readyToFocus w)) as (w' & -> & H).
  exists w'. split; [reflexivity|]. exact (keeps_trans _ _ _ (readyToFocus_keeps w) H).
Qed.

Lemma resume_keeps d w : exists w', resume d w = Ok (tt, w') /\ keeps w w'.
Proof.
  rewrite resume_unfold. destruct (focus_keeps d (with_freezed false w)) as (w' & -> & H).
  exists w'. split; [reflexivity|]. eapply keeps_trans; [|exact H]. unfold keeps. tauto.
Qed.

(** [stop], when it completes: the overlay loses its parent, the observer
    is disconnected, and nothing else changes. *)
Lemma stop_completed w w' :
  stop w = Ok (tt, w') ->
  attached w /\
  w' = let w0 := with_cursor (with_parent None (cursor_ w)) w in
       match observer_ w with
       | Some i => with_observer (Some i) (<[i:=false]> (observers w)) w0
       | None => w0
       end.
Proof.
  unfold stop, removeFromRoot_, disconnectFocus_, attached, bind, gets, modify, throw, ret.
  cbn. destruct (bool_decide (parentNode (cursor_ w) = Some (root_ w))) eqn:Ea;
    [|discriminate].
  apply bool_decide_eq_true in Ea.
  destruct (observer_ w) eqn:Eo; cbn; rewrite Eo; cbn; intros [= <-];
    (split; [exact Ea|]); rewrite ?Eo; reflexivity.
Qed.

Lemma step_keeps d a w w' : step d a w = Ok (tt, w') -> keeps w w'.
Proof.
  destruct a; cbn [step].
  - destruct (start_keeps d w) as (w1 & -> & H). intros [= <-]. exact H.
  - destruct (resume_keeps d w) as (w1 & -> & H). intros [= <-]. exact H.
  - intros Hs. apply stop_completed in Hs. destruct Hs as (_ & ->).
    destruct (observer_ w);
      unfold keeps, styled, shownOrHidden, visible, hidden; cbn; tauto.
  - unfold freeze, modify. intros [= <-]. unfold keeps. tauto.
  - destruct (focus_keeps d w) as (w1 & -> & H). intros [= <-]. exact H.
  - destruct (place_keeps d w) as (w1 & -> & H). intros [= <-]. exact H.
  - destruct (move_keeps d w) as (w1 & -> & H). intros [= <-]. exact H.
  - unfold addEventListener, modify. intros [= <-]. unfold keeps. tauto.
  - unfold removeEventListener, modify. intros [= <-]. unfold keeps. tauto.
  - destruct (deliver_keeps d mutationRecords w) as (w1 & -> & H). intros [= <-]. exact H.
Qed.

Lemma run_keeps events : forall w w', run events w = Ok (tt, w') -> keeps w w'.
Proof.
  induction events as [|[d a] events IH]; intros w w'.
  - cbn. unfold ret. intros [= <-]. apply keeps_refl.
  - rewrite run_cons. destruct (step d a w) as [[[] w1]|e] eqn:Es; [|discriminate].
    intros Hr. exact (keeps_trans _ _ _ (step_keeps d a w w1 Es) (IH w1 w' Hr)).
Qed.

(** ** [isInDocumentBody] *)

Lemma isInDocumentBody_from_iff d chain : forall e,
  isInDocumentBody_from d e chain = true <-> e = body d \/ In (body d) chain.
Proof.
  induction chain as [|p chain IH]; intros e; cbn.
  - destruct (bool_decide (e = body d)) eqn:E.
    + apply bool_decide_eq_true in E. tauto.
    + apply bool_decide_eq_false in E. split; [discriminate|]. intros [H|[]]. contradiction.
  - destruct (bool_decide (e = body d)) eqn:E.
    + apply bool_decide_eq_true in E. tauto.
    + apply bool_decide_eq_false in E. rewrite IH. split.
      * intros [->|H]; auto.
      * intros [H|[H|H]]; [contradiction|auto|auto].
Qed.

(** X1. [isInDocumentBody] rejects [null], and accepts an element exactly
    when it is [document.body] or [document.body] is among its offset
    parents, however far up. *)
Theorem isInDocumentBody_accepts d e :
  isInDocumentBody d None = false /\
  (isInDocumentBody d (Some e) = true <-> e = body d \/ In (body d) (offsetChain d e)).
Proof. split; [reflexivity|]. apply isInDocumentBody_from_iff. Qed.

(** ** The listener registry *)

Lemma removeFirst_absent ty h ls :
  (forall x, In x ls -> sameRegistration ty h x = false) -> removeFirst ty h ls = ls.
Proof.
  induction ls as [|x ls IH]; intros H; cbn; [reflexivity|].
  fold (sameRegistration ty h x). rewrite (H x (or_introl eq_refl)).
  rewrite IH; [reflexivity|]. intros y Hy. apply H. now right.
Qed.

Lemma removeFirst_first ty h pre x post :
  (forall y, In y pre -> sameRegistration ty h y = false) ->
  sameRegistration ty h x = true ->
  removeFirst ty h (pre ++ x :: post) = pre ++ post.
Proof.
  induction pre as [|p pre IH]; intros Hpre Hx; cbn.
  - fold (sameRegistration ty h x). rewrite Hx. reflexivity.
  - fold (sameRegistration ty h p). rewrite (Hpre p (or_introl eq_refl)).
    rewrite IH; auto. intros y Hy. apply Hpre. now right.
Qed.

Lemma with_listeners_same w : with_listeners (eventListeners_ w) w = w.
Proof. destruct w; reflexivity. Qed.

Lemma registrations_app ty h l1 l2 :
  registrations ty h (l1 ++ l2) = registrations ty h l1 + registrations ty h l2.
Proof. unfold registrations. rewrite List.filter_app, length_app. reflexivity. Qed.

Lemma registrations_cons_same ty h x ls :
  sameRegistration ty h x = true ->
  registrations ty h (x :: ls) = S (registrations ty h ls).
Proof. unfold registrations. cbn. intros ->. reflexivity. Qed.

(** X2. [removeEventListener] with a type and handler that are not registered
    together completes and changes nothing at all. *)
Theorem removeEventListener_absent ty h w :
  (forall x, In x (eventListeners_ w) -> ~ (type x = ty /\ listener x = h)) ->
  removeEventListener ty h w = Ok (tt, w).
Proof.
  intros H. unfold removeEventListener, modify.
  rewrite removeFirst_absent; [rewrite with_listeners_same; reflexivity|].
  intros x Hx. unfold sameRegistration. apply andb_false_iff.
  destruct (bool_decide (type x = ty)) eqn:E1; [|auto].
  destruct (bool_decide (listener x = h)) eqn:E2; [|auto].
  apply bool_decide_eq_true in E1, E2. destruct (H x Hx). auto.
Qed.

(** X3. [removeEventListener] removes one registration only, the earliest
    one with that type and handler: the entries before and after it keep
    their order, later registrations of the same pair stay, and nothing else
    in the manager changes. *)
Theorem removeEventListener_removes_first ty h w pre x post :
  eventListeners_ w = pre ++ x :: post ->
  (forall y, In y pre -> ~ (type y = ty /\ listener y = h)) ->
  type x = ty -> listener x = h ->
  removeEventListener ty h w = Ok (tt, with_listeners (pre ++ post) w) /\
  registrations ty h (pre ++ post) = registrations ty h post /\
  S (registrations ty h (pre ++ post)) = registrations ty h (eventListeners_ w).
Proof.
  intros Hls Hpre Hty Hh.
  assert (Hpre' : forall y, In y pre -> sameRegistration ty h y = false).
  { intros y Hy. unfold sameRegistration. apply andb_false_iff.
    destruct (bool_decide (type y = ty)) eqn:E1; [|auto].
    destruct (bool_decide (listener y = h)) eqn:E2; [|auto].
    apply bool_decide_eq_true in E1, E2. destruct (Hpre y Hy). auto. }
  assert (Hx : sameRegistration ty h x = true).
  { unfold sameRegistration. rewrite !bool_decide_eq_true_2; auto. }
  assert (H0 : registrations ty h pre = 0).
  { unfold registrations. clear Hls. induction pre as [|p pre IH]; [reflexivity|].
    cbn. rewrite (Hpre' p (or_introl eq_refl)). apply IH.
    - intros y Hy. apply Hpre. now right.
    - intros y Hy. apply Hpre'. now right. }
  split; [|split].
  - unfold removeEventListener, modify. rewrite Hls, removeFirst_first; auto.
  - rewrite registrations_app, H0. reflexivity.
  - rewrite Hls, !registrations_app, H0.
    rewrite (registrations_cons_same ty h x post Hx). reflexivity.
Qed.

(** X4. Adding a listener that is not registered yet and removing it again
    gives back the manager as it was. *)
Theorem add_then_remove_listener ty h w :
  (forall x, In x (eventListeners_ w) -> ~ (type x = ty /\ listener x = h)) ->
  (addEventListener ty h;; removeEventListener ty h) w = Ok (tt, w).
Proof.
  intros H. unfold addEventListener, removeEventListener, modify, bind. cbn.
  rewrite removeFirst_first.
  - rewrite app_nil_r. destruct w; reflexivity.
  - intros y Hy. unfold sameRegistration. apply andb_false_iff.
    destruct (bool_decide (type y = ty)) eqn:E1; [|auto].
    destruct (bool_decide (listener y = h)) eqn:E2; [|auto].
    apply bool_decide_eq_true in E1, E2. destruct (H y Hy). auto.
  - unfold sameRegistration. cbn. rewrite !bool_decide_eq_true_2; auto.
Qed.





(** ** Runs *)

(** X6. No run changes the transition duration of the overlay, the root or
    the focus class name of the manager. *)
Theorem run_keeps_transition_root_and_class events w w' :
  run events w = Ok (tt, w') ->
  transitionDuration (style (cursor_ w')) = transitionDuration (style (cursor_ w)) /\
  root_ w' = root_ w /\
  focusClassName_ w' = focusClassName_ w.
Proof.
  intros Hr. destruct (run_keeps events w w' Hr) as (H1 & H2 & H3 & _). auto.
Qed.

Lemma readyToFocus_fresh dc root cls :
  styled (readyToFocus (constructor dc root cls)) /\
  hidden (readyToFocus (constructor dc root cls)).
Proof. split; [|reflexivity]. unfold styled. cbn. auto. Qed.

(** X7. After [start] on a new manager and whatever actions follow, the
    overlay carries the one class [__spatial-navigation-cursor__], is
    positioned [absolute] at [top: 0], [left: 0], and its [display] is
    either the empty string or ['none']. *)
Theorem started_overlay_stays_styled dc d0 root cls events w1 w :
  start d0 (constructor dc root cls) = Ok (tt, w1) ->
  run events w1 = Ok (tt, w) ->
  c_classList (cursor_ w) = ["__spatial-navigation-cursor__"] /\
  position (style (cursor_ w)) = "absolute" /\
  top (style (cursor_ w)) = "0" /\
  left (style (cursor_ w)) = "0" /\
  (display (style (cursor_ w)) = "" \/ display (style (cursor_ w)) = "none").
Proof.
  intros Hs Hr. rewrite start_unfold in Hs.
  destruct (focus_keeps d0 (readyToFocus (constructor dc root cls))) as (w1' & Hf & Hk).
  rewrite Hf in Hs. injection Hs as <-.
  destruct (readyToFocus_fresh dc root cls) as (Hst & Hh).
  destruct Hk as (_ & _ & _ & Hk1 & Hk2 & _).
  destruct (run_keeps events w1' w Hr) as (_ & _ & _ & Hr1 & Hr2 & _).
  specialize (Hr1 (Hk1 Hst)). specialize (Hr2 (Hk2 (or_intror Hh))).
  destruct Hr1 as (? & ? & ? & ?). repeat split; auto.
Qed.

Lemma step_focused d a w w' :
  isMutations a = false -> step d a w = Ok (tt, w') -> focused_ w' = focused_ w.
Proof.
  destruct a; cbn [step isMutations]; intros Hm; try discriminate.
  - rewrite start_unfold.
    destruct (focus_outcome d (readyToFocus w)) as (w1 & rest & -> & [_ Hfo] & _).
    intros [= <-]. exact Hfo.
  - rewrite resume_unfold.
    destruct (focus_outcome d (with_freezed false w)) as (w1 & rest & -> & [_ Hfo] & _).
    intros [= <-]. exact Hfo.
  - intros Hs. apply stop_completed in Hs. destruct Hs as (_ & ->).
    destruct (observer_ w); reflexivity.
  - unfold freeze, modify. intros [= <-]. reflexivity.
  - destruct (focus_outcome d w) as (w1 & rest & -> & [_ Hfo] & _).
    intros [= <-]. exact Hfo.
  - destruct (place_outcome d w) as (w1 & -> & [_ Hfo] & _). intros [= <-]. exact Hfo.
  - destruct (move_outcome d w) as (w1 & -> & [_ Hfo] & _). intros [= <-]. exact Hfo.
  - unfold addEventListener, modify. intros [= <-]. reflexivity.
  - unfold removeEventListener, modify. intros [= <-]. reflexivity.
Qed.

(** X8. The tracked element is written by mutation batches only: a run
    without batches leaves it as it was, and no run at all takes a manager
    that tracks an element back to tracking none. *)
Theorem tracked_element_changes events w w' :
  run events w = Ok (tt, w') ->
  (Forall (fun da => isMutations (snd da) = false) events -> focused_ w' = focused_ w) /\
  (is_Some (focused_ w) -> is_Some (focused_ w')).
Proof.
  intros Hr. split; [|apply (run_keeps events w w' Hr)].
  intros Hall. revert w Hr.
  induction Hall as [|[d a] events Ha _ IH]; intros w.
  - cbn. unfold ret. intros [= <-]. reflexivity.
  - rewrite run_cons. destruct (step d a w) as [[[] w1]|e] eqn:Es; [|discriminate].
    intros Hr. rewrite (IH w1 Hr). exact (step_focused d a w w1 Ha Es).
Qed.

Lemma step_completes d a w : a <> AStop -> exists w', step d a w = Ok (tt, w').
Proof.
  intros Ha. destruct a; cbn [step]; try congruence.
  - destruct (start_keeps d w) as (w' & H & _). eauto.
  - destruct (resume_keeps d w) as (w' & H & _). eauto.
  - unfold freeze, modify. eauto.
  - destruct (focus_keeps d w) as (w' & H & _). eauto.
  - destruct (place_keeps d w) as (w' & H & _). eauto.
  - destruct (move_keeps d w) as (w' & H & _). eauto.
  - unfold addEventListener, modify. eauto.
  - unfold removeEventListener, modify. eauto.
  - destruct (deliver_keeps d mutationRecords w) as (w' & H & _). eauto.
Qed.

(** In this embedding [removeChild] is the only call that throws: a run
    without [stop] completes, from any world. *)
Theorem run_without_stop_completes events w :
  Forall (fun da => snd da <> AStop) events ->
  exists w', run events w = Ok (tt, w').
Proof.
  intros Hall. revert w. induction Hall as [|[d a] events Ha _ IH]; intros w.
  - exists w. reflexivity.
  - rewrite run_cons. destruct (step_completes d a w Ha) as (w1 & ->). apply IH.
Qed.

Lemma sameFrame_attached w w' : sameFrame w w' -> attached w -> attached w'.
Proof.
  unfold sameFrame, attached. intros H Ha.
  destruct H as (-> & _ & _ & _ & _ & _ & _ & _ & ->). exact Ha.
Qed.

Lemma step_attached d a w w' :
  a <> AStop -> attached w -> step d a w = Ok (tt, w') -> attached w'.
Proof.
  intros Ha Hat. destruct a; cbn [step]; try congruence.
  - rewrite start_unfold.
    destruct (focus_outcome d (readyToFocus w)) as (w1 & rest & -> & [Hfr _] & _).
    intros [= <-]. apply (sameFrame_attached _ _ Hfr). reflexivity.
  - rewrite resume_unfold.
    destruct (focus_outcome d (with_freezed false w)) as (w1 & rest & -> & [Hfr _] & _).
    intros [= <-]. apply (sameFrame_attached _ _ Hfr). exact Hat.
  - unfold freeze, modify. intros [= <-]. exact Hat.
  - destruct (focus_outcome d w) as (w1 & rest & -> & [Hfr _] & _).
    intros [= <-]. exact (sameFrame_attached _ _ Hfr Hat).
  - destruct (place_outcome d w) as (w1 & -> & [Hfr _] & _).
    intros [= <-]. exact (sameFrame_attached _ _ Hfr Hat).
  - destruct (move_outcome d w) as (w1 & -> & [Hfr _] & _).
    intros [= <-]. exact (sameFrame_attached _ _ Hfr Hat).
  - unfold addEventListener, modify. intros [= <-]. exact Hat.
  - unfold removeEventListener, modify. intros [= <-]. exact Hat.
  - destruct (deliver_frame d mutationRecords w) as (w1 & -> & Hfr).
    intros [= <-]. exact (sameFrame_attached _ _ Hfr Hat).
Qed.

Lemma run_attached events :
  Forall (fun da => snd da <> AStop) events ->
  forall w w', attached w -> run events w = Ok (tt, w') -> attached w'.
Proof.
  induction 1 as [|[d a] events Ha _ IH]; intros w w' Hat.
  - cbn. unfold ret. intros [= <-]. exact Hat.
  - rewrite run_cons. destruct (step d a w) as [[[] w1]|e] eqn:Es; [|discriminate].
    apply IH. exact (step_attached d a w w1 Ha Hat Es).
Qed.

Lemma start_attached d w w' : start d w = Ok (tt, w') -> attached w'.
Proof.
  rewrite start_unfold.
  destruct (focus_outcome d (readyToFocus w)) as (w1 & rest & -> & [Hfr _] & _).
  intros [= <-]. apply (sameFrame_attached _ _ Hfr). reflexivity.
Qed.

Lemma start_observers d w w' :
  start d w = Ok (tt, w') ->
  observers w' = observers w ++ [true] /\ observer_ w' = Some (length (observers w)).
Proof.
  rewrite start_unfold.
  destruct (focus_outcome d (readyToFocus w)) as (w1 & rest & -> & [Hfr _] & _).
  intros [= <-]. destruct Hfr as (_ & _ & _ & _ & -> & _ & -> & _). split; reflexivity.
Qed.

Lemma sameFrame_observerHeld w w' : sameFrame w w' -> observerHeld w -> observerHeld w'.
Proof.
  unfold sameFrame, observerHeld. intros H Hh.
  destruct H as (_ & _ & _ & _ & -> & _ & -> & _). exact Hh.
Qed.

Lemma start_observerHeld d w w' : start d w = Ok (tt, w') -> observerHeld w'.
Proof.
  intros Hs. destruct (start_observers d w w' Hs) as (Ho & Hi).
  exists (length (observers w)). split; [exact Hi|].
  rewrite Ho. apply list_lookup_middle. reflexivity.
Qed.

Lemma step_observerHeld d a w w' :
  a <> AStop -> observerHeld w -> step d a w = Ok (tt, w') -> observerHeld w'.
Proof.
  intros Ha Hh. destruct a; cbn [step]; try congruence.
  - apply start_observerHeld.
  - rewrite resume_unfold.
    destruct (focus_outcome d (with_freezed false w)) as (w1 & rest & -> & [Hfr _] & _).
    intros [= <-]. apply (sameFrame_observerHeld _ _ Hfr). exact Hh.
  - unfold freeze, modify. intros [= <-]. exact Hh.
  - destruct (focus_outcome d w) as (w1 & rest & -> & [Hfr _] & _).
    intros [= <-]. exact (sameFrame_observerHeld _ _ Hfr Hh).
  - destruct (place_outcome d w) as (w1 & -> & [Hfr _] & _).
    intros [= <-]. exact (sameFrame_observerHeld _ _ Hfr Hh).
  - destruct (move_outcome d w) as (w1 & -> & [Hfr _] & _).
    intros [= <-]. exact (sameFrame_observerHeld _ _ Hfr Hh).
  - unfold addEventListener, modify. intros [= <-]. exact Hh.
  - unfold removeEventListener, modify. intros [= <-]. exact Hh.
  - destruct (deliver_frame d mutationRecords w) as (w1 & -> & Hfr).
    intros [= <-]. exact (sameFrame_observerHeld _ _ Hfr Hh).
Qed.

Lemma run_observerHeld events :
  Forall (fun da => snd da <> AStop) events ->
  forall w w', observerHeld w -> run events w = Ok (tt, w') -> observerHeld w'.
Proof.
  induction 1 as [|[d a] events Ha _ IH]; intros w w' Hh.
  - cbn. unfold ret. intros [= <-]. exact Hh.
  - rewrite run_cons. destruct (step d a w) as [[[] w1]|e] eqn:Es; [|discriminate].
    apply IH. exact (step_observerHeld d a w w1 Ha Hh Es).
Qed.

(** X9. On a manager that was started and not stopped since, [stop]
    completes.  It takes the overlay off the root and disconnects the
    observer that [observer_] holds (the one of the last [start]), and that
    is all: the other observers, the style of the overlay (its visibility
    and geometry), the tracked element, the frozen flag, the listeners and
    the trace are as before. *)
Theorem stop_after_start d0 w0 w1 events w :
  start d0 w0 = Ok (tt, w1) ->
  Forall (fun da => snd da <> AStop) events ->
  run events w1 = Ok (tt, w) ->
  exists w', stop w = Ok (tt, w') /\
    parentNode (cursor_ w') = None /\
    style (cursor_ w') = style (cursor_ w) /\
    focused_ w' = focused_ w /\
    freezed_ w' = freezed_ w /\
    eventListeners_ w' = eventListeners_ w /\
    trace w' = trace w /\
    exists i,
      observer_ w = Some i /\
      observer_ w' = Some i /\
      observers w !! i = Some true /\
      observers w' !! i = Some false /\
      observers w' = <[i:=false]> (observers w).
Proof.
  intros Hs Hall Hr.
  assert (Hat : attached w).
  { apply (run_attached events Hall w1 w); [|exact Hr]. exact (start_attached d0 w0 w1 Hs). }
  assert (Hco : observerHeld w).
  { apply (run_observerHeld events Hall w1 w); [|exact Hr].
    exact (start_observerHeld d0 w0 w1 Hs). }
  destruct Hco as (i & Hi & Hlook).
  unfold stop, removeFromRoot_, disconnectFocus_, bind, gets, modify, throw, ret. cbn.
  rewrite (bool_decide_eq_true_2 _ Hat). cbn. rewrite !Hi. cbn.
  eexists. split; [reflexivity|]. cbn.
  repeat (split; [reflexivity|]).
  exists i. split; [reflexivity|]. split; [exact Hi|]. split; [exact Hlook|].
  split; [|reflexivity].
  apply list_lookup_insert_eq. apply lookup_lt_Some in Hlook. exact Hlook.
Qed.

Lemma notifyEach_first_only (callback : M unit) w :
  notifyEach [true; false] callback w
  = match callback w with
    | Ok (_, w1) => Ok (tt, w1)
    | Throw e => Throw e
    end.
Proof. cbn. unfold bind, ret. destruct (callback w) as [[[] w1]|e]; reflexivity. Qed.

(** X10. [start] is not guarded against a second call: the second [start]
    creates a second observer and [observer_] forgets the first, so that a
    [stop] disconnects the second only.  After start, start, stop the first
    observer still reports: a batch with a carrier [t] makes the stopped
    manager track [t] and notify the listeners. *)
Theorem second_start_leaves_an_observer d1 d2 w0 w1 w2 w3 :
  observers w0 = [] ->
  start d1 w0 = Ok (tt, w1) ->
  start d2 w1 = Ok (tt, w2) ->
  stop w2 = Ok (tt, w3) ->
  observers w3 = [true; false] /\
  forall d rs t,
    scanRecords d (focusClassName_ w3) rs = Some t ->
    exists w' mid,
      deliver d rs w3 = Ok (tt, w') /\
      focused_ w' = Some t /\
      trace w' = trace w3 ++ mid ++ notification w3 t.
Proof.
  intros H0 Hs1 Hs2 Hstop.
  destruct (start_observers d1 w0 w1 Hs1) as (Ho1 & _).
  destruct (start_observers d2 w1 w2 Hs2) as (Ho2 & Hi2).
  rewrite Ho1, H0 in Ho2, Hi2. cbn in Ho2, Hi2.
  destruct (stop_outcome w2 w3 Hstop) as (_ & _ & _ & Ho3).
  rewrite Hi2, Ho2 in Ho3. cbn in Ho3.
  split; [exact Ho3|]. intros d rs t Es.
  unfold deliver, bind, gets. rewrite Ho3, notifyEach_first_only.
  destruct (callback_outcome d rs w3) as (w' & Hc & _ & H).
  rewrite Hc. rewrite Es in H. destruct H as (Hfo & H).
  destruct (freezed_ w3).
  - destruct H as (_ & Ht). exists w', []. auto.
  - destruct H as (w4 & rest & _ & _ & Ht1 & Ht & _).
    exists w', (Called MFocus :: rest). split; [reflexivity|]. split; [exact Hfo|].
    rewrite Ht, Ht1, <- app_assoc. reflexivity.
Qed.

(** ** [start] on a new manager *)

(** X11. [start] on a new manager completes.  The overlay is then a child
    of the root, styled, one observer is connected, nothing is tracked and
    the manager is not frozen.  The first placement is a [place], never a
    [move]: the overlay is shown on the first element of the document, in
    tree order, that carries the focus class, and stays hidden with an empty
    geometry when there is none. *)
Theorem start_on_new_manager dc d root cls :
  exists w, start d (constructor dc root cls) = Ok (tt, w) /\
    attached w /\ root_ w = root /\ styled w /\
    observers w = [true] /\ observer_ w = Some 0 /\
    focused_ w = None /\ freezed_ w = false /\ eventListeners_ w = [] /\
    match find (fun e => classList_contains (classList d e) cls) (docOrder d) with
    | Some e =>
        visible w /\
        geometry w = geometryOf d (getAbsoluteElementRect d e) /\
        trace w = [Called MFocus; Called MPlace; scrollTo d (getAbsoluteElementRect d e)]
    | None =>
        hidden w /\ geometry w = ("", "", "") /\ trace w = [Called MFocus; Called MPlace]
    end.
Proof.
  rewrite start_unfold, focus_unfold.
  set (w0 := readyToFocus (constructor dc root cls)).
  rewrite (proj2 (focusPlaces_true w0) (or_introl eq_refl)).
  set (w1 := with_trace (trace w0 ++ [Called MFocus]) w0).
  destruct (place_outcome d w1) as (w & Hp & [Hfr Hfo] & _ & H).
  destruct (place_keeps d w1) as (w' & Hp' & Hk).
  rewrite Hp in Hp'. injection Hp' as <-.
  destruct (readyToFocus_fresh dc root cls) as (Hst & _).
  destruct Hk as (_ & _ & _ & Hk & _).
  exists w. split; [exact Hp|].
  split; [apply (sameFrame_attached _ _ Hfr); reflexivity|].
  split; [apply Hfr|]. split; [exact (Hk Hst)|].
  destruct Hfr as (_ & _ & Hfz & _ & Hob & Hls & Hobs & _).
  split; [exact Hobs|]. split; [exact Hob|]. split; [exact Hfo|].
  split; [exact Hfz|]. split; [exact Hls|].
  change (effectiveTarget d w1)
    with (find (fun e => classList_contains (classList d e) cls) (docOrder d)) in H.
  destruct (find _ (docOrder d)) as [e|] eqn:Ef.
  - cbn in H. destruct H as (Hg & Ht & Hd).
    assert (Hm : marked d w1 e = true) by (apply find_some in Ef; apply Ef).
    rewrite Hm in Hd. auto.
  - destruct H as (Hh & Hg & Ht). auto.
Qed.

(** ** [freeze] gates the observer callback only *)

Lemma place_freezed d w w' b :
  place d w = Ok (tt, w') -> place d (with_freezed b w) = Ok (tt, with_freezed b w').
Proof.
  unfold place. unfold_prims. cbn.
  destruct (if isInDocumentBody d (focused_ w) then _ else _) as [e|]; cbn.
  - destruct (negb _); cbn; intros [= <-]; reflexivity.
  - intros [= <-]; reflexivity.
Qed.

Lemma move_freezed d w w' b :
  move d w = Ok (tt, w') -> move d (with_freezed b w) = Ok (tt, with_freezed b w').
Proof.
  unfold move. unfold_prims. cbn.
  destruct (if isInDocumentBody d (focused_ w) then _ else _) as [e|]; cbn.
  - destruct (negb _); cbn; intros [= <-]; reflexivity.
  - intros [= <-]; reflexivity.
Qed.

(** X12. The frozen flag plays no part in [focus], [place] and [move] called
    directly: on a frozen manager they scroll and position the overlay just
    as on one that is not frozen, and leave the flag as it is. *)
Theorem direct_calls_ignore_freeze d w b :
  (exists w', focus d w = Ok (tt, w') /\
     focus d (with_freezed b w) = Ok (tt, with_freezed b w')) /\
  (exists w', place d w = Ok (tt, w') /\
     place d (with_freezed b w) = Ok (tt, with_freezed b w')) /\
  (exists w', move d w = Ok (tt, w') /\
     move d (with_freezed b w) = Ok (tt, with_freezed b w')).
Proof.
  split; [|split].
  - destruct (focus_keeps d w) as (w' & Hf & _). exists w'. split; [exact Hf|].
    revert Hf. rewrite !focus_unfold.
    change (focusPlaces (with_freezed b w)) with (focusPlaces w).
    change (with_trace (trace (with_freezed b w) ++ [Called MFocus]) (with_freezed b w))
      with (with_freezed b (with_trace (trace w ++ [Called MFocus]) w)).
    destruct (focusPlaces w); [apply place_freezed|apply move_freezed].
  - destruct (place_keeps d w) as (w' & Hp & _). exists w'.
    split; [exact Hp|exact (place_freezed d w w' b Hp)].
  - destruct (move_keeps d w) as (w' & Hm & _). exists w'.
    split; [exact Hm|exact (move_freezed d w w' b Hm)].
Qed.

(** ** Where a batch puts the overlay *)

(** The callback on a manager that is not frozen, the scan selecting [t] and
    the effective target being [e], which carries the class. *)
Lemma callback_running_on d rs w t e :
  scanRecords d (focusClassName_ w) rs = Some t ->
  freezed_ w = false ->
  effectiveTarget d (with_focused (Some t) w) = Some e ->
  marked d w e = true ->
  exists w', observerCallback d rs w = Ok (tt, w') /\
    focused_ w' = Some t /\
    visible w' /\
    geometry w' = geometryOf d (getAbsoluteElementRect d e) /\
    trace w' = trace w
               ++ [Called MFocus;
                   Called (if isHidden w then MPlace else MMove);
                   scrollTo d (getAbsoluteElementRect d e)]
               ++ notification w t.
Proof.
  intros Es Ef He Hm.
  set (w0 := with_focused (Some t) w) in *.
  set (w1 := with_trace (trace w0 ++ [Called MFocus]) w0).
  assert (Hfp : focusPlaces w0 = isHidden w).
  { unfold focusPlaces, isHidden. cbn [focused_ w0 with_focused].
    rewrite (bool_decide_eq_true_2 (is_Some (Some t))); [reflexivity|eauto]. }
  assert (Hfoc : exists wf, focus d w0 = Ok (tt, wf) /\ sameManager w1 wf /\
            visible wf /\ geometry wf = geometryOf d (getAbsoluteElementRect d e) /\
            trace wf = trace w1
                       ++ [Called (if isHidden w then MPlace else MMove);
                           scrollTo d (getAbsoluteElementRect d e)]).
  { rewrite focus_unfold, Hfp. fold w1.
    change (effectiveTarget d w0) with (effectiveTarget d w1) in He.
    change (marked d w e) with (marked d w1 e) in Hm.
    destruct (isHidden w).
    - destruct (place_outcome d w1) as (wf & Hp & Hs & _ & H).
      rewrite He in H. cbn in H. rewrite Hm in H. destruct H as (Hg & Ht & Hd).
      exists wf. auto.
    - destruct (move_outcome d w1) as (wf & Hp & Hs & _ & H).
      rewrite He in H. cbn in H. rewrite Hm in H. destruct H as (Hv & Hg & Ht).
      exists wf. auto. }
  destruct Hfoc as (wf & Hfoc & [Hfr Hfo] & Hv & Hg & Ht).
  rewrite (callback_running d rs w t wf Es Ef Hfoc).
  eexists. split; [reflexivity|]. split; [exact Hfo|]. split; [exact Hv|].
  split; [exact Hg|]. cbn [trace with_trace]. rewrite Ht.
  rewrite (notification_listeners w wf t); [|apply Hfr].
  cbn. rewrite <- !app_assoc. reflexivity.
Qed.

(** X13. On a manager that is not frozen, a batch whose first carrier [t] is
    attached puts the overlay on [t]: visible, with the geometry of [t], after
    one scroll.  The overlay is placed when it was hidden and moved when it
    was not, and the listeners are called after it has been positioned. *)
Theorem batch_puts_overlay_on_attached_target d rs w t :
  scanRecords d (focusClassName_ w) rs = Some t ->
  freezed_ w = false ->
  isInDocumentBody d (Some t) = true ->
  exists w', observerCallback d rs w = Ok (tt, w') /\
    focused_ w' = Some t /\
    visible w' /\
    geometry w' = geometryOf d (getAbsoluteElementRect d t) /\
    trace w' = trace w
               ++ [Called MFocus;
                   Called (if isHidden w then MPlace else MMove);
                   scrollTo d (getAbsoluteElementRect d t)]
               ++ notification w t.
Proof.
  intros Es Ef Hat. apply (callback_running_on d rs w t t Es Ef).
  - unfold effectiveTarget. cbn [focused_ with_focused]. rewrite Hat. reflexivity.
  - apply scanRecords_Some in Es. destruct Es as (pre & r & post & _ & _ & Hm & ->).
    exact Hm.
Qed.

(** X14. When the first carrier [t] of the batch is not attached (not
    rendered, say), the manager tracks [t] and tells the listeners of [t],
    but the overlay goes to the first element of the document, in tree
    order, that carries the class, which need not be [t]. *)
Theorem batch_target_not_attached d rs w t e :
  scanRecords d (focusClassName_ w) rs = Some t ->
  freezed_ w = false ->
  isInDocumentBody d (Some t) = false ->
  find (fun x => classList_contains (classList d x) (focusClassName_ w)) (docOrder d)
  = Some e ->
  exists w', observerCallback d rs w = Ok (tt, w') /\
    focused_ w' = Some t /\
    visible w' /\
    geometry w' = geometryOf d (getAbsoluteElementRect d e) /\
    trace w' = trace w
               ++ [Called MFocus;
                   Called (if isHidden w then MPlace else MMove);
                   scrollTo d (getAbsoluteElementRect d e)]
               ++ notification w t.
Proof.
  intros Es Ef Hat Hfind. apply (callback_running_on d rs w t e Es Ef).
  - unfold effectiveTarget. cbn [focused_ with_focused]. rewrite Hat.
    rewrite querySelector_class. exact Hfind.
  - apply find_some in Hfind. apply Hfind.
Qed.

(** ** A frozen manager *)

Lemma staysFrozen_refl w : freezed_ w = true -> staysFrozen w w.
Proof.
  intros Hf. split; [exact Hf|]. split; [reflexivity|]. split; [auto|].
  exists []. rewrite app_nil_r. auto.
Qed.

Lemma staysFrozen_trans w1 w2 w3 : staysFrozen w1 w2 -> staysFrozen w2 w3 -> staysFrozen w1 w3.
Proof.
  intros (_ & Hg1 & Hv1 & a1 & Ht1 & Hs1) (Hf & Hg2 & Hv2 & a2 & Ht2 & Hs2).
  split; [exact Hf|]. split; [congruence|]. split; [auto|].
  exists (a1 ++ a2). split; [rewrite Ht2, Ht1, app_assoc; reflexivity|].
  unfold occurrences in *. rewrite List.filter_app, length_app, Hs1, Hs2. reflexivity.
Qed.

Lemma notification_no_scroll w t : occurrences isScroll (notification w t) = 0.
Proof.
  unfold notification, occurrences. cbn.
  induction (filter _ (eventListeners_ w)) as [|l ls IH]; [reflexivity|exact IH].
Qed.

Lemma callback_staysFrozen d rs w :
  freezed_ w = true ->
  exists w', observerCallback d rs w = Ok (tt, w') /\ staysFrozen w w'.
Proof.
  intros Hf. destruct (callback_outcome d rs w) as (w' & Hc & Hfr & H).
  exists w'. split; [exact Hc|].
  assert (Hf' : freezed_ w' = true) by (rewrite <- Hf; apply Hfr).
  split; [exact Hf'|].
  destruct (scanRecords d (focusClassName_ w) rs) as [t|].
  - rewrite Hf in H. destruct H as (_ & Hcur & Ht).
    unfold geometry, visible. rewrite Hcur. split; [reflexivity|]. split; [auto|].
    exists (notification w t). split; [exact Ht|apply notification_no_scroll].
  - destruct H as (_ & Hh & Hg & Ht). split; [exact Hg|]. split.
    + intros Hv. destruct (visible_not_hidden _ Hv Hh).
    + exists []. rewrite app_nil_r. auto.
Qed.

Lemma notifyEach_staysFrozen (callback : M unit) :
  (forall w, freezed_ w = true ->
             exists w', callback w = Ok (tt, w') /\ staysFrozen w w') ->
  forall flags w, freezed_ w = true ->
    exists w', notifyEach flags callback w = Ok (tt, w') /\ staysFrozen w w'.
Proof.
  intros Hcb flags. induction flags as [|b flags IH]; intros w Hf; cbn.
  - exists w. split; [reflexivity|exact (staysFrozen_refl w Hf)].
  - unfold bind. destruct b.
    + destruct (Hcb w Hf) as (w1 & -> & H1).
      destruct (IH w1 (proj1 H1)) as (w2 & -> & H2).
      exists w2. split; [reflexivity|]. exact (staysFrozen_trans _ _ _ H1 H2).
    + cbn. exact (IH w Hf).
Qed.

Lemma step_staysFrozen d a w :
  callsNoFocus a = true -> freezed_ w = true ->
  exists w', step d a w = Ok (tt, w') /\ staysFrozen w w'.
Proof.
  intros Ha Hf. destruct a; cbn [step callsNoFocus] in *; try discriminate.
  - unfold freeze, modify. eexists. split; [reflexivity|].
    split; [reflexivity|]. split; [reflexivity|]. split; [auto|].
    exists []. cbn. rewrite app_nil_r. auto.
  - unfold addEventListener, modify. eexists. split; [reflexivity|].
    split; [exact Hf|]. split; [reflexivity|]. split; [auto|].
    exists []. cbn. rewrite app_nil_r. auto.
  - unfold removeEventListener, modify. eexists. split; [reflexivity|].
    split; [exact Hf|]. split; [reflexivity|]. split; [auto|].
    exists []. cbn. rewrite app_nil_r. auto.
  - unfold deliver, bind, gets. apply notifyEach_staysFrozen; [|exact Hf].
    intros w0. apply callback_staysFrozen.
Qed.

(** X15. While the manager is frozen, no sequence of mutation batches (with
    [freeze] and the registry methods in between) scrolls the window or
    changes the geometry of the overlay, and none makes a hidden overlay
    visible; the manager is still frozen afterwards.  A batch can still hide
    the overlay. *)
Theorem frozen_manager_does_not_reposition events w :
  freezed_ w = true ->
  Forall (fun da => callsNoFocus (snd da) = true) events ->
  exists w' added,
    run events w = Ok (tt, w') /\
    freezed_ w' = true /\
    geometry w' = geometry w /\
    (visible w' -> visible w) /\
    trace w' = trace w ++ added /\
    occurrences isScroll added = 0.
Proof.
  intros Hf Hall.
  assert (H : exists w', run events w = Ok (tt, w') /\ staysFrozen w w').
  { revert w Hf. induction Hall as [|[d a] events Ha _ IH]; intros w Hf.
    - exists w. split; [reflexivity|exact (staysFrozen_refl w Hf)].
    - rewrite run_cons. destruct (step_staysFrozen d a w Ha Hf) as (w1 & -> & H1).
      destruct (IH w1 (proj1 H1)) as (w2 & Hr & H2).
      exists w2. split; [exact Hr|exact (staysFrozen_trans _ _ _ H1 H2)]. }
  destruct H as (w' & Hr & Hf' & Hg & Hv & added & Ht & Hs).
  exists w', added. repeat (split; [assumption|]). exact Hs.
Qed.

(** ** [place] and [move] on a target without the class *)

(** X16. When the effective target does not carry the focus class (a tracked
    element that is still attached but lost the class), [place] and [move]
    both hide the overlay, but [place] scrolls the window to that element
    and gives the overlay its geometry first, where [move] leaves the
    geometry alone and does not scroll. *)
Theorem target_without_class d w e :
  effectiveTarget d w = Some e ->
  marked d w e = false ->
  (exists w', place d w = Ok (tt, w') /\ hidden w' /\
     geometry w' = geometryOf d (getAbsoluteElementRect d e) /\
     trace w' = trace w ++ [Called MPlace; scrollTo d (getAbsoluteElementRect d e)]) /\
  (exists w', move d w = Ok (tt, w') /\ hidden w' /\
     geometry w' = geometry w /\
     trace w' = trace w ++ [Called MMove]).
Proof.
  intros He Hm. split.
  - destruct (place_outcome d w) as (w' & Hp & _ & _ & H).
    rewrite He in H. cbn in H. rewrite Hm in H. destruct H as (Hg & Ht & Hd).
    exists w'. auto.
  - destruct (move_outcome d w) as (w' & Hp & _ & _ & H).
    rewrite He in H. cbn in H. rewrite Hm in H. destruct H as (Hh & Hg & Ht).
    exists w'. auto.
Qed.

End Lifecycle.

(** * The properties on the example page *)

Section Examples.
Import Example Cases.

Example start_on_A :
  run [(page [A] [], AStart)] fresh = Ok (tt, startedOnA) /\
  geometry startedOnA = ("80px", "40px", "translate3d(48px, 98px, 0)") /\
  visible startedOnA /\
  trace startedOnA
  = [Called MFocus; Called MPlace; WindowScroll (int 0) (int (-180)) "smooth"].
Proof.
  split; [reflexivity|]. split; [reflexivity|]. split; reflexivity.
Qed.

(** The chains of the example pages agree with each other. *)
Example page_coherent ms : coherentChains (page ms []).
Proof.
  intros e p rest. cbn. destruct (bool_decide (e = BODY)); cbn; [discriminate|].
  intros [= <- <-]. reflexivity.
Qed.

(** The worlds of the examples are reached from the fresh manager. *)
Example worlds_reached :
  run [(page [A] [], AStart); (page [A] [], AMutations [mutated A])] fresh
  = Ok (tt, trackingA) /\
  run [(page [A] [], AStart); (page [A] [], AAddEventListener "focusUpdated" 7);
       (page [A] [], AFreeze)] fresh = Ok (tt, frozenOnA) /\
  run [(page [A] [], AStart); (page [B] [], AMutations [mutated A; mutated B]);
       (page [B] [], AFreeze)] fresh = Ok (tt, beforeStop).
Proof.
  split; [reflexivity|]. split; reflexivity.
Qed.

(** The tracked element [A] is not rendered any more: the query takes over,
    and finds [B], or [A] itself when it still carries the class. *)
Example unrendered_tracked_element :
  focused_ trackingA = Some A /\
  isInDocumentBody (page [B] [A]) (Some A) = false /\
  effectiveTarget (page [B] [A]) trackingA = Some B /\
  effectiveTarget (page [A] [A]) trackingA = Some A /\
  effectiveTarget (page [] [A]) trackingA = None.
Proof.
  split; [reflexivity|]. split; [reflexivity|]. split; [reflexivity|].
  split; reflexivity.
Qed.

(** Witness of C5: a started manager that tracks [A], at [{top: 100, left:
    50, width: 80, height: 40}] under a 2px border in a window 600 high. *)
Lemma placement_geometry_witness :
  run [(page [A] [], AStart); (page [A] [], AMutations [mutated A])] fresh
    = Ok (tt, trackingA) /\
  effectiveTarget (page [A] []) trackingA = Some A /\
  marked (page [A] []) trackingA A = true /\
  (exists w', place (page [A] []) trackingA = Ok (tt, w') /\
     trace w' = trace trackingA
                ++ [Called MPlace; WindowScroll (int 0) (int (-180)) "smooth"] /\
     geometry w' = ("80px", "40px", "translate3d(48px, 98px, 0)")) /\
  (exists w', move (page [A] []) trackingA = Ok (tt, w') /\
     trace w' = trace trackingA
                ++ [Called MMove; WindowScroll (int 0) (int (-180)) "smooth"] /\
     geometry w' = ("80px", "40px", "translate3d(48px, 98px, 0)")).
Proof.
  assert (He : effectiveTarget (page [A] []) trackingA = Some A) by reflexivity.
  assert (Hm : marked (page [A] []) trackingA A = true) by reflexivity.
  split; [reflexivity|]. split; [exact He|]. split; [exact Hm|].
  destruct (placement_geometry (page [A] []) trackingA A He) as (_ & Hplace & Hmove).
  split.
  - destruct Hplace as (w' & Hp & Ht & Hw & Hh & Htr).
    exists w'. split; [exact Hp|]. unfold geometry. rewrite Ht, Hw, Hh, Htr.
    split; reflexivity.
  - destruct (Hmove Hm) as (w' & Hp & Ht & Hw & Hh & Htr).
    exists w'. split; [exact Hp|]. unfold geometry. rewrite Ht, Hw, Hh, Htr.
    split; reflexivity.
Defined.

(** Counterexample to C5 with the border widths taken as they are: the
    overlay has a computed border of 1.5px.  [parseInt] reads 1 from it, so
    [place] and [move] translate the overlay to (49, 99), not to
    (50 - 1.5, 100 - 1.5) = (48.5, 98.5). *)
Lemma fractional_border_counterexample :
  run [(page [A] [], AStart); (page [A] [], AMutations [mutated A])] fresh
    = Ok (tt, trackingA) /\
  effectiveTarget (borderedPage "1.5px") trackingA = Some A /\
  marked (borderedPage "1.5px") trackingA A = true /\
  cursorBorderLeftWidth (borderedPage "1.5px") = "1.5px" /\
  cursorBorderTopWidth (borderedPage "1.5px") = "1.5px" /\
  pixels "1.5px" = Some (3 # 2) /\
  parseIntQ "1.5px" = int 1 /\
  getAbsoluteElementRect (borderedPage "1.5px") A
    = {| r_top := int 100; r_left := int 50; r_width := int 80; r_height := int 40 |} /\
  place (borderedPage "1.5px") trackingA = Ok (tt, placedUnderFractionalBorder) /\
  move (borderedPage "1.5px") trackingA = Ok (tt, movedUnderFractionalBorder) /\
  transform (style (cursor_ placedUnderFractionalBorder)) = "translate3d(49px, 99px, 0)" /\
  transform (style (cursor_ movedUnderFractionalBorder)) = "translate3d(49px, 99px, 0)" /\
  spec_translate (getAbsoluteElementRect (borderedPage "1.5px") A)
                 (pixels "1.5px") (pixels "1.5px")
    = "translate3d(48.5px, 98.5px, 0)" /\
  transform (style (cursor_ placedUnderFractionalBorder))
    <> spec_translate (getAbsoluteElementRect (borderedPage "1.5px") A)
                      (pixels "1.5px") (pixels "1.5px") /\
  transform (style (cursor_ movedUnderFractionalBorder))
    <> spec_translate (getAbsoluteElementRect (borderedPage "1.5px") A)
                      (pixels "1.5px") (pixels "1.5px").
Proof.
  assert (Hspec : spec_translate (getAbsoluteElementRect (borderedPage "1.5px") A)
                                 (pixels "1.5px") (pixels "1.5px")
                  = "translate3d(48.5px, 98.5px, 0)") by reflexivity.
  split; [reflexivity|]. split; [reflexivity|]. split; [reflexivity|].
  split; [reflexivity|]. split; [reflexivity|]. split; [reflexivity|].
  split; [reflexivity|]. split; [reflexivity|]. split; [reflexivity|].
  split; [reflexivity|]. split; [reflexivity|]. split; [reflexivity|].
  split; [exact Hspec|].
  rewrite Hspec. split; discriminate.
Qed.

(** Witness of C3: [focus] on a manager that tracks nothing is [place]; on
    one whose overlay is hidden it is [place]; on one that tracks [A] with
    the overlay shown it is [move]. *)
Lemma focus_dispatch_witness :
  (focused_ startedOnA = None /\
   focus (page [A] []) startedOnA
   = place (page [A] []) (with_trace (trace startedOnA ++ [Called MFocus]) startedOnA)) /\
  (hidden hiddenByC /\
   focus (page [A] []) hiddenByC
   = place (page [A] []) (with_trace (trace hiddenByC ++ [Called MFocus]) hiddenByC)) /\
  (focused_ trackingA = Some A /\ visible trackingA /\
   focus (page [A] []) trackingA
   = move (page [A] []) (with_trace (trace trackingA ++ [Called MFocus]) trackingA)).
Proof.
  split; [|split].
  - split; [reflexivity|].
    destruct (focus_dispatch (page [A] []) startedOnA) as (Hp & _ & _).
    apply Hp. left. reflexivity.
  - split; [reflexivity|].
    destruct (focus_dispatch (page [A] []) hiddenByC) as (Hp & _ & _).
    apply Hp. right. reflexivity.
  - assert (Ef : focused_ trackingA = Some A) by reflexivity.
    assert (Ev : visible trackingA) by reflexivity.
    split; [exact Ef|]. split; [exact Ev|].
    destruct (focus_dispatch (page [A] []) trackingA) as (_ & Hm & _).
    apply Hm. intros [H|H].
    + rewrite Ef in H. discriminate.
    + exact (visible_not_hidden _ Ev H).
Defined.

(** Witness of C6: [A] comes first in the document, [B] first in the batch;
    the callback tracks [B].  A batch on [C] alone hides the overlay. *)
Lemma callback_selects_first_in_batch_witness :
  querySelector (page [A; B] []) ".focus" = Some A /\
  (exists w', observerCallback (page [A; B] []) [mutated C; mutated B; mutated A] startedOnA
              = Ok (tt, w') /\ focused_ w' = Some B) /\
  (exists w', observerCallback (page [A; B] []) [mutated C] startedOnA = Ok (tt, w') /\
              hidden w').
Proof.
  split; [reflexivity|]. split.
  - destruct (callback_selects_first_in_batch (page [A; B] []) [mutated C; mutated B; mutated A]
                startedOnA) as (w' & Hc & Hfirst & _).
    exists w'. split; [exact Hc|].
    apply (Hfirst [mutated C] (mutated B) [mutated A]).
    + reflexivity.
    + intros x [<-|[]]. reflexivity.
    + reflexivity.
  - destruct (callback_selects_first_in_batch (page [A; B] []) [mutated C] startedOnA)
      as (w' & Hc & _ & Hnone).
    exists w'. split; [exact Hc|]. apply Hnone.
    intros x [<-|[]]. reflexivity.
Defined.

(** Witness of C10: the class has left [A], which the manager tracks. *)
Lemma batch_without_carrier_witness :
  focused_ trackingA = Some A /\
  (forall r, In r [mutated A] -> marked (page [] []) trackingA (target r) = false) /\
  exists w', observerCallback (page [] []) [mutated A] trackingA = Ok (tt, w') /\
    hidden w' /\ focused_ w' = Some A /\ trace w' = trace trackingA.
Proof.
  assert (H : forall r, In r [mutated A] -> marked (page [] []) trackingA (target r) = false).
  { intros r [<-|[]]. reflexivity. }
  split; [reflexivity|]. split; [exact H|].
  destruct (batch_without_carrier (page [] []) [mutated A] trackingA H)
    as (w' & Hc & Hh & Hf & _ & Ht & _).
  exists w'. split; [exact Hc|]. split; [exact Hh|]. split; [|exact Ht].
  rewrite Hf. reflexivity.
Defined.

(** Witness of C2: the class moves from [A] to [B] while the manager is
    frozen; the listener hears of [B], the overlay stays on [A] until
    [resume] puts it on [B]. *)
Lemma frozen_batch_then_resume_witness :
  (exists r, In r [mutated A; mutated B] /\ marked (page [B] []) frozenOnA (target r) = true) /\
  exists w',
    observerCallback (page [B] []) [mutated A; mutated B] frozenOnA = Ok (tt, w') /\
    focused_ w' = Some B /\
    geometry w' = ("80px", "40px", "translate3d(48px, 98px, 0)") /\
    trace w' = trace frozenOnA
               ++ [Triggered "focusUpdated" (focusUpdatedOn B);
                   HandlerCall 7 (focusUpdatedOn B)] /\
    exists w2, resume (page [B] []) w' = Ok (tt, w2) /\
      geometry w2 = ("80px", "40px", "translate3d(48px, 198px, 0)").
Proof.
  assert (H : exists r, In r [mutated A; mutated B]
                        /\ marked (page [B] []) frozenOnA (target r) = true).
  { exists (mutated B). split; [right; left; reflexivity|reflexivity]. }
  split; [exact H|].
  destruct (frozen_batch_then_resume (page [B] []) [mutated A; mutated B] frozenOnA H)
    as (t & w' & Hs & _ & Hc & Hf & _ & Hfrozen & Hresume).
  assert (Hs' : scanRecords (page [B] []) (focusClassName_ frozenOnA) [mutated A; mutated B]
                = Some B) by reflexivity.
  rewrite Hs' in Hs. injection Hs as <-.
  assert (Hfz : freezed_ frozenOnA = true) by reflexivity.
  rewrite Hfz in Hfrozen. destruct Hfrozen as (Hcur & Htr).
  exists w'. split; [exact Hc|]. split; [exact Hf|].
  split; [unfold geometry; rewrite Hcur; reflexivity|].
  split; [rewrite Htr; reflexivity|].
  destruct (Hresume (page [B] [])) as (w2 & rest & Hr & _ & _ & _ & _ & _ & _ & Hg).
  exists w2. split; [exact Hr|].
  assert (He : effectiveTarget (page [B] []) w' = Some B).
  { unfold effectiveTarget. rewrite Hf. reflexivity. }
  rewrite He in Hg.
  assert (Hm : marked (page [B] []) w' B = true).
  { unfold marked.
    destruct (callback_outcome (page [B] []) [mutated A; mutated B] frozenOnA)
      as (w'' & Hc' & Hfr & _).
    rewrite Hc in Hc'. injection Hc' as <-.
    destruct Hfr as (_ & -> & _). reflexivity. }
  rewrite Hm in Hg. destruct Hg as (_ & -> & _). reflexivity.
Defined.

(** Witness of C8: [resume] on the manager that the batch on [C] left
    hidden, not frozen, shows the overlay on [A] again, after a scroll.  On
    the page where no element carries the class there is no effective
    target, and [resume] on a running manager does not scroll. *)
Lemma resume_when_running_witness :
  (freezed_ hiddenByC = false /\
   focused_ hiddenByC = None /\
   resume (page [A] []) hiddenByC = focus (page [A] []) hiddenByC /\
   exists w', resume (page [A] []) hiddenByC = Ok (tt, w') /\
     freezed_ w' = false /\ focused_ w' = None /\ visible w' /\
     geometry w' = ("80px", "40px", "translate3d(48px, 98px, 0)") /\
     trace w' = trace hiddenByC
                ++ [Called MFocus; Called MPlace;
                    WindowScroll (int 0) (int (-180)) "smooth"]) /\
  (freezed_ startedOnNothing = false /\
   effectiveTarget (page [] []) startedOnNothing = None /\
   exists w', resume (page [] []) startedOnNothing = Ok (tt, w') /\
     hidden w' /\
     trace w' = trace startedOnNothing ++ [Called MFocus; Called MPlace]).
Proof.
  split.
  - assert (Hf : freezed_ hiddenByC = false) by reflexivity.
    split; [exact Hf|]. split; [reflexivity|].
    destruct (resume_when_running (page [A] []) hiddenByC Hf)
      as (Heq & w' & Hr & Hfz & Hfo & _ & Hv & Hg & Ht & _).
    split; [exact Heq|]. exists w'. split; [exact Hr|]. split; [exact Hfz|].
    split; [rewrite Hfo; reflexivity|].
    assert (He : effectiveTarget (page [A] []) hiddenByC = Some A) by reflexivity.
    assert (Hm : marked (page [A] []) hiddenByC A = true) by reflexivity.
    split; [|split].
    + apply Hv. exists A. auto.
    + rewrite He, Hm in Hg. rewrite Hg. reflexivity.
    + rewrite Ht. reflexivity.
  - assert (Hf : freezed_ startedOnNothing = false) by reflexivity.
    assert (He : effectiveTarget (page [] []) startedOnNothing = None) by reflexivity.
    split; [exact Hf|]. split; [exact He|].
    destruct (resume_when_running (page [] []) startedOnNothing Hf)
      as (_ & w' & Hr & _ & _ & Hvh & Hv & _ & Ht & _).
    exists w'. split; [exact Hr|]. split.
    + destruct Hvh as [Hvis|Hh]; [|exact Hh].
      apply Hv in Hvis. destruct Hvis as (e & Hsome & _).
      rewrite He in Hsome. discriminate.
    + rewrite Ht. reflexivity.
Defined.

(** Counterexample to C8 as stated: the manager is not frozen, yet [resume]
    changes the visibility (first case, after the batch on [C]) and the
    geometry (second case, the class having just been put on [A]), and it
    scrolls the window. *)
Lemma resume_counterexample :
  (run [(page [A] [], AStart); (page [A] [], AMutations [mutated C])] fresh
   = Ok (tt, hiddenByC) /\
   freezed_ hiddenByC = false /\ hidden hiddenByC /\
   exists w', resume (page [A] []) hiddenByC = Ok (tt, w') /\ visible w' /\
     trace w' = trace hiddenByC
                ++ [Called MFocus; Called MPlace;
                    WindowScroll (int 0) (int (-180)) "smooth"]) /\
  (run [(page [] [], AStart)] fresh = Ok (tt, startedOnNothing) /\
   freezed_ startedOnNothing = false /\
   geometry startedOnNothing = ("", "", "") /\
   exists w', resume (page [A] []) startedOnNothing = Ok (tt, w') /\ visible w' /\
     geometry w' = ("80px", "40px", "translate3d(48px, 98px, 0)")).
Proof.
  split; (split; [reflexivity|]); (split; [reflexivity|]); (split; [reflexivity|]).
  - exists resumedAfterC. split; [reflexivity|]. split; reflexivity.
  - exists resumedOnNewMark. split; [reflexivity|]. split; reflexivity.
Qed.

(** Counterexample to C1 as stated.  [A] and [B] carry the class when the
    manager starts; the class is then taken off [B] and the batch on [B] is
    processed.  The manager is not frozen and nothing is pending, [A] is
    attached and carries the class, yet the overlay is hidden.  Right after
    [start] on a page where [A] carries the class the overlay is visible
    while no element is tracked at all.  And on a frozen manager the overlay
    stays hidden after the class was put on [A] and the batch processed,
    [A] being tracked, attached and carrying the class. *)
Lemma visibility_counterexample :
  (run [(page [A; B] [], AStart); (page [A] [], AMutations [mutated B])] fresh
   = Ok (tt, afterUnmarkingB) /\
   freezed_ afterUnmarkingB = false /\
   In A (docOrder (page [A] [])) /\
   isInDocumentBody (page [A] []) (Some A) = true /\
   marked (page [A] []) afterUnmarkingB A = true /\
   spec_someLiveMarked (page [A] []) afterUnmarkingB = true /\
   hidden afterUnmarkingB /\
   ~ (visible afterUnmarkingB
      <-> spec_someLiveMarked (page [A] []) afterUnmarkingB = true)) /\
  (focused_ startedOnA = None /\ visible startedOnA) /\
  (run [(page [] [], AStart); (page [] [], AFreeze); (page [A] [], AMutations [mutated A])]
       fresh = Ok (tt, markedWhileFrozen) /\
   focused_ markedWhileFrozen = Some A /\
   isInDocumentBody (page [A] []) (Some A) = true /\
   marked (page [A] []) markedWhileFrozen A = true /\
   hidden markedWhileFrozen).
Proof.
  split; [|split; [split; reflexivity|]].
  2:{ split; [reflexivity|]. split; [reflexivity|]. split; [reflexivity|].
      split; reflexivity. }
  split; [reflexivity|]. split; [reflexivity|].
  split; [right; right; left; reflexivity|]. split; [reflexivity|].
  split; [reflexivity|]. split; [reflexivity|]. split; [reflexivity|].
  intros [_ H].
  assert (Hv : visible afterUnmarkingB) by (apply H; reflexivity).
  assert (Hh : hidden afterUnmarkingB) by reflexivity.
  exact (visible_not_hidden _ Hv Hh).
Qed.

(** Counterexample to C4 as stated.  The only element that carries the class
    is [X], outside the root: a query of the observed subtree finds nothing,
    so the overlay would be hidden; [place] finds [X] through the document
    and puts the visible overlay on it. *)
Lemma resolution_counterexample :
  run [(page [] [], AStart)] fresh = Ok (tt, startedOnNothing) /\
  nodeContains (page [X] []) (root_ startedOnNothing) X = false /\
  spec_effectiveTarget (page [X] []) startedOnNothing = None /\
  effectiveTarget (page [X] []) startedOnNothing = Some X /\
  effectiveTarget (page [X] []) startedOnNothing
    <> spec_effectiveTarget (page [X] []) startedOnNothing /\
  exists w', place (page [X] []) startedOnNothing = Ok (tt, w') /\ visible w' /\
    geometry w' = ("80px", "40px", "translate3d(48px, 398px, 0)").
Proof.
  assert (E1 : spec_effectiveTarget (page [X] []) startedOnNothing = None)
    by reflexivity.
  assert (E2 : effectiveTarget (page [X] []) startedOnNothing = Some X) by reflexivity.
  split; [reflexivity|].
  split; [reflexivity|]. split; [exact E1|]. split; [exact E2|].
  split; [rewrite E1, E2; discriminate|].
  exists placedOnX. split; [reflexivity|]. split; reflexivity.
Qed.

(** Witness of C9. *)
Lemma stop_is_terminal_witness :
  start (page [A] []) (constructor (page [] []) ROOT "focus") = Ok (tt, startedOnA) /\
  run [(page [B] [], AMutations [mutated A; mutated B]);
       (page [B] [], AFreeze)] startedOnA = Ok (tt, beforeStop) /\
  stop beforeStop = Ok (tt, stopped) /\
  deliver (page [C] []) [mutated B; mutated C] stopped = Ok (tt, stopped) /\
  disconnectFocus_ stopped = Ok (tt, stopped) /\
  stop stopped = Throw NotFoundError.
Proof.
  assert (Hacts : Forall (fun da : Dom * Action => snd da <> AStart)
                    [(page [B] [], AMutations [mutated A; mutated B]); (page [B] [], AFreeze)]).
  { repeat constructor; discriminate. }
  assert (Hstart : start (page [A] []) (constructor (page [] []) ROOT "focus")
                   = Ok (tt, startedOnA)) by reflexivity.
  assert (Hrun : run [(page [B] [], AMutations [mutated A; mutated B]);
                      (page [B] [], AFreeze)] startedOnA
                 = Ok (tt, beforeStop)) by reflexivity.
  assert (Hstop : stop beforeStop = Ok (tt, stopped)) by reflexivity.
  destruct (stop_is_terminal (page [] []) (page [A] []) ROOT "focus" _ startedOnA
              beforeStop stopped Hstart Hacts Hrun Hstop) as (Hdel & _ & Hdis & Hthrow).
  split; [exact Hstart|]. split; [exact Hrun|]. split; [exact Hstop|].
  split; [apply Hdel|]. split; [exact Hdis|exact Hthrow].
Defined.

(** Counterexample to C9 as stated: the second [stop] of a started and
    stopped manager does not complete, it throws [NotFoundError]. *)
Lemma second_stop_counterexample :
  run [(page [A] [], AStart); (page [B] [], AMutations [mutated A; mutated B]);
       (page [B] [], AFreeze); (page [B] [], AStop)] fresh = Ok (tt, stopped) /\
  stop stopped = Throw NotFoundError /\
  run [(page [A] [], AStart); (page [A] [], AStop); (page [A] [], AStop)] fresh
  = Throw NotFoundError.
Proof.
  split; [reflexivity|]. split; reflexivity.
Qed.

End Examples.

(** * The further properties on the example page *)

Section LifecycleExamples.
Import Example Cases.

(** Witness of X2: no listener is registered under [click]. *)
Lemma removeEventListener_absent_witness :
  eventListeners_ frozenOnA = [onFocusUpdated 7] /\
  removeEventListener "click" 7 frozenOnA = Ok (tt, frozenOnA).
Proof.
  assert (E : eventListeners_ frozenOnA = [onFocusUpdated 7]) by reflexivity.
  split; [exact E|].
  apply removeEventListener_absent. rewrite E.
  intros x [<-|[]] [H _]. discriminate H.
Defined.

(** Witness of X3: handler 7 is registered twice, around handler 8; the
    first registration goes. *)
Lemma removeEventListener_removes_first_witness :
  eventListeners_ threeListeners = [onFocusUpdated 7; onFocusUpdated 8; onFocusUpdated 7] /\
  removeEventListener "focusUpdated" 7 threeListeners = Ok (tt, twoListeners) /\
  eventListeners_ twoListeners = [onFocusUpdated 8; onFocusUpdated 7] /\
  registrations "focusUpdated" 7 (eventListeners_ twoListeners) = 1.
Proof.
  assert (E : eventListeners_ threeListeners
              = [] ++ onFocusUpdated 7 :: [onFocusUpdated 8; onFocusUpdated 7])
    by reflexivity.
  destruct (removeEventListener_removes_first "focusUpdated" 7 threeListeners
              [] (onFocusUpdated 7) [onFocusUpdated 8; onFocusUpdated 7] E)
    as (Hrem & _ & _).
  - intros y [].
  - reflexivity.
  - reflexivity.
  - split; [exact E|]. split; [|split; reflexivity].
    rewrite Hrem. reflexivity.
Defined.

(** Witness of X4. *)
Lemma add_then_remove_listener_witness :
  eventListeners_ startedOnA = [] /\
  (addEventListener "focusUpdated" 7;; removeEventListener "focusUpdated" 7) startedOnA
  = Ok (tt, startedOnA).
Proof.
  assert (E : eventListeners_ startedOnA = []) by reflexivity.
  split; [exact E|]. apply add_then_remove_listener. rewrite E. intros x [].
Defined.


(** Witness of X6. *)
Lemma run_keeps_transition_root_and_class_witness :
  run [(page [A] [], AStart); (page [B] [], AMutations [mutated A; mutated B]);
       (page [B] [], AFreeze); (page [B] [], AStop)] fresh = Ok (tt, stopped) /\
  transitionDuration (style (cursor_ stopped)) = "" /\
  root_ stopped = ROOT /\
  focusClassName_ stopped = "focus".
Proof.
  assert (Hr : run [(page [A] [], AStart);
                    (page [B] [], AMutations [mutated A; mutated B]);
                    (page [B] [], AFreeze); (page [B] [], AStop)] fresh
               = Ok (tt, stopped)) by reflexivity.
  split; [exact Hr|].
  destruct (run_keeps_transition_root_and_class _ fresh stopped Hr) as (H1 & H2 & H3).
  rewrite H1, H2, H3. split; [reflexivity|]. split; reflexivity.
Defined.

(** Witness of X7. *)
Lemma started_overlay_stays_styled_witness :
  start (page [A] []) (constructor (page [] []) ROOT "focus") = Ok (tt, startedOnA) /\
  run [(page [B] [], AMutations [mutated A; mutated B]); (page [B] [], AFreeze);
       (page [B] [], AStop)] startedOnA = Ok (tt, stopped) /\
  c_classList (cursor_ stopped) = ["__spatial-navigation-cursor__"] /\
  position (style (cursor_ stopped)) = "absolute".
Proof.
  assert (Hs : start (page [A] []) (constructor (page [] []) ROOT "focus")
               = Ok (tt, startedOnA)) by reflexivity.
  assert (Hr : run [(page [B] [], AMutations [mutated A; mutated B]);
                    (page [B] [], AFreeze); (page [B] [], AStop)] startedOnA
               = Ok (tt, stopped)) by reflexivity.
  destruct (started_overlay_stays_styled _ _ _ _ _ _ _ Hs Hr) as (H1 & H2 & _).
  split; [exact Hs|]. split; [exact Hr|]. split; [exact H1|exact H2].
Defined.

(** Witness of X8: [freeze] and [resume] while the class is on [B]; the
    manager still tracks [A]. *)
Lemma tracked_element_changes_witness :
  run [(page [B] [], AFreeze); (page [B] [], AResume)] trackingA
  = Ok (tt, resumedTracking) /\
  focused_ trackingA = Some A /\
  focused_ resumedTracking = Some A.
Proof.
  assert (Hr : run [(page [B] [], AFreeze); (page [B] [], AResume)] trackingA
               = Ok (tt, resumedTracking)) by reflexivity.
  assert (Hf : focused_ trackingA = Some A) by reflexivity.
  split; [exact Hr|]. split; [exact Hf|].
  destruct (tracked_element_changes _ trackingA resumedTracking Hr) as (H & _).
  rewrite H; [exact Hf|]. repeat constructor.
Defined.

(** A run without [stop], from the fresh manager. *)
Lemma run_without_stop_completes_witness :
  exists w', run [(page [A] [], AStart); (page [B] [], AMutations [mutated B]);
                  (page [B] [], AMove)] fresh = Ok (tt, w').
Proof.
  apply run_without_stop_completes. repeat constructor; discriminate.
Defined.

(** Witness of X9. *)
Lemma stop_after_start_witness :
  start (page [A] []) fresh = Ok (tt, startedOnA) /\
  run [(page [B] [], AMutations [mutated A; mutated B]); (page [B] [], AFreeze)]
      startedOnA = Ok (tt, beforeStop) /\
  exists w', stop beforeStop = Ok (tt, w') /\
    parentNode (cursor_ w') = None /\
    style (cursor_ w') = style (cursor_ beforeStop) /\
    focused_ w' = Some B /\
    observers beforeStop = [true] /\
    observers w' = [false].
Proof.
  assert (Hs : start (page [A] []) fresh = Ok (tt, startedOnA)) by reflexivity.
  assert (Hr : run [(page [B] [], AMutations [mutated A; mutated B]);
                    (page [B] [], AFreeze)] startedOnA = Ok (tt, beforeStop))
    by reflexivity.
  split; [exact Hs|]. split; [exact Hr|].
  assert (Hall : Forall (fun da : Dom * Action => snd da <> AStop)
                    [(page [B] [], AMutations [mutated A; mutated B]);
                     (page [B] [], AFreeze)]).
  { repeat constructor; discriminate. }
  destruct (stop_after_start (page [A] []) fresh startedOnA _ beforeStop Hs Hall Hr)
    as (w' & Hstop & Hp & Hst & Hfo & _ & _ & _ & i & Hi & _ & _ & _ & Hobs).
  exists w'. split; [exact Hstop|]. split; [exact Hp|]. split; [exact Hst|].
  split; [rewrite Hfo; reflexivity|]. split; [reflexivity|].
  assert (E : observer_ beforeStop = Some 0) by reflexivity.
  rewrite E in Hi. injection Hi as <-. rewrite Hobs. reflexivity.
Defined.

(** Witness of X10: started twice and stopped, the manager still follows
    the class to [B]. *)
Lemma second_start_leaves_an_observer_witness :
  start (page [A] []) fresh = Ok (tt, startedOnA) /\
  start (page [A] []) startedOnA = Ok (tt, startedTwice) /\
  stop startedTwice = Ok (tt, stoppedOnce) /\
  observers stoppedOnce = [true; false] /\
  exists w', deliver (page [B] []) [mutated A; mutated B] stoppedOnce = Ok (tt, w') /\
    focused_ w' = Some B.
Proof.
  assert (H0 : observers fresh = []) by reflexivity.
  assert (H1 : start (page [A] []) fresh = Ok (tt, startedOnA)) by reflexivity.
  assert (H2 : start (page [A] []) startedOnA = Ok (tt, startedTwice)) by reflexivity.
  assert (H3 : stop startedTwice = Ok (tt, stoppedOnce)) by reflexivity.
  destruct (second_start_leaves_an_observer _ _ _ _ _ _ H0 H1 H2 H3) as (Ho & Hd).
  split; [exact H1|]. split; [exact H2|]. split; [exact H3|]. split; [exact Ho|].
  destruct (Hd (page [B] []) [mutated A; mutated B] B) as (w' & mid & Hdel & Hfo & _).
  { reflexivity. }
  exists w'. split; [exact Hdel|exact Hfo].
Defined.

(** Witness of X13: the manager tracks [A], its overlay visible; the class
    moves to [B]; the overlay is moved, not placed. *)
Lemma batch_puts_overlay_on_attached_target_witness :
  freezed_ trackingA = false /\
  isInDocumentBody (page [B] []) (Some B) = true /\
  exists w', observerCallback (page [B] []) [mutated A; mutated B] trackingA
             = Ok (tt, w') /\
    focused_ w' = Some B /\ visible w' /\
    geometry w' = ("80px", "40px", "translate3d(48px, 198px, 0)") /\
    trace w' = trace trackingA
               ++ [Called MFocus; Called MMove; WindowScroll (int 0) (int (-80)) "smooth";
                   Triggered "focusUpdated" (focusUpdatedOn B)].
Proof.
  assert (Hf : freezed_ trackingA = false) by reflexivity.
  assert (Ha : isInDocumentBody (page [B] []) (Some B) = true) by reflexivity.
  split; [exact Hf|]. split; [exact Ha|].
  destruct (batch_puts_overlay_on_attached_target (page [B] []) [mutated A; mutated B]
              trackingA B) as (w' & Hc & Hfo & Hv & Hg & Ht); [reflexivity|exact Hf|exact Ha|].
  exists w'. split; [exact Hc|]. split; [exact Hfo|]. split; [exact Hv|].
  split; [rewrite Hg|rewrite Ht]; reflexivity.
Defined.

(** Witness of X14: [A] and [B] carry the class, [B] is not rendered; the
    batch on [B] makes the manager track [B] and puts the overlay on [A]. *)
Lemma batch_target_not_attached_witness :
  isInDocumentBody (page [A; B] [B]) (Some B) = false /\
  exists w', observerCallback (page [A; B] [B]) [mutated B] startedOnA = Ok (tt, w') /\
    focused_ w' = Some B /\ visible w' /\
    geometry w' = ("80px", "40px", "translate3d(48px, 98px, 0)").
Proof.
  assert (Ha : isInDocumentBody (page [A; B] [B]) (Some B) = false) by reflexivity.
  split; [exact Ha|].
  destruct (batch_target_not_attached (page [A; B] [B]) [mutated B] startedOnA B A)
    as (w' & Hc & Hfo & Hv & Hg & _);
    [reflexivity|reflexivity|exact Ha|reflexivity|].
  exists w'. split; [exact Hc|]. split; [exact Hfo|]. split; [exact Hv|].
  rewrite Hg. reflexivity.
Defined.

(** Witness of X15: two batches reach the frozen manager; the overlay stays
    where [start] put it, on [A]. *)
Lemma frozen_manager_does_not_reposition_witness :
  freezed_ frozenOnA = true /\
  exists w' added,
    run [(page [B] [], AMutations [mutated A; mutated B]);
         (page [C] [], AMutations [mutated B; mutated C])] frozenOnA = Ok (tt, w') /\
    geometry w' = ("80px", "40px", "translate3d(48px, 98px, 0)") /\
    trace w' = trace frozenOnA ++ added /\
    occurrences isScroll added = 0.
Proof.
  assert (Hf : freezed_ frozenOnA = true) by reflexivity.
  split; [exact Hf|].
  destruct (frozen_manager_does_not_reposition
              [(page [B] [], AMutations [mutated A; mutated B]);
               (page [C] [], AMutations [mutated B; mutated C])] frozenOnA Hf)
    as (w' & added & Hr & _ & Hg & _ & Ht & Hs).
  { repeat constructor. }
  exists w', added. split; [exact Hr|]. split; [rewrite Hg; reflexivity|].
  split; [exact Ht|exact Hs].
Defined.

(** Witness of X16: the tracked [A] is attached and has lost the class. *)
Lemma target_without_class_witness :
  effectiveTarget (page [] []) trackingA = Some A /\
  marked (page [] []) trackingA A = false /\
  (exists w', place (page [] []) trackingA = Ok (tt, w') /\ hidden w' /\
     trace w' = trace trackingA
                ++ [Called MPlace; WindowScroll (int 0) (int (-180)) "smooth"]) /\
  (exists w', move (page [] []) trackingA = Ok (tt, w') /\ hidden w' /\
     trace w' = trace trackingA ++ [Called MMove]).
Proof.
  assert (He : effectiveTarget (page [] []) trackingA = Some A) by reflexivity.
  assert (Hm : marked (page [] []) trackingA A = false) by reflexivity.
  split; [exact He|]. split; [exact Hm|].
  destruct (target_without_class (page [] []) trackingA A He Hm)
    as ((wp & Hp & Hhp & _ & Htp) & (wm & Hmv & Hhm & _ & Htm)).
  split.
  - exists wp. split; [exact Hp|]. split; [exact Hhp|]. rewrite Htp. reflexivity.
  - exists wm. split; [exact Hmv|]. split; [exact Hhm|exact Htm].
Defined.

(** Witness of X17: one step of fuel for the one offset parent of [A]. *)
Lemma isInDocumentBody_enough_fuel_witness :
  coherentChains (page [] []) /\
  length (offsetChain (page [] []) A) <= 1 /\
  isInDocumentBody_fuel 1 (page [] []) (Some A) = Some true.
Proof.
  assert (Hc : coherentChains (page [] [])) by apply page_coherent.
  assert (Hl : length (offsetChain (page [] []) A) <= 1) by exact (le_n 1).
  split; [exact Hc|]. split; [exact Hl|].
  rewrite (isInDocumentBody_enough_fuel (page [] []) Hc 1 A Hl). reflexivity.
Defined.

End LifecycleExamples.
